(** * Afforestation impact calculator: the growth / carbon model of [script.js]

    The development embeds the three functions of the in-browser variant of
    the calculator ([calculateBiomass], [calculateCarbonSequestration] and
    the validation of [calculateImpact]) together with the species table,
    and checks the statements of the design document against them.  It then
    embeds what the script does to the page (the visibility helpers,
    [displayResults], [createChart], the timer and the input listeners) and
    the variant of [calculateImpact] that asks a remote service, and proves
    further properties of both.

    Modelling conventions.
    - A JavaScript number is a [Number]: either a finite value, idealised as
      a real ([Fin x]), or [NaN].  Rounding error of IEEE-754 doubles is not
      represented; infinities are not represented either, and none arises:
      the only divisors are the constants 0.1, 10, 1000 and the logistic
      denominator, which is positive for every profile of the table
      (lemma [table_denominator_pos]).
    - [Math.exp] is the real exponential, [Math.round x] is the integer
      floor of [x + 1/2] (ties go up), [Math.min] and [Math.max] propagate
      [NaN].
    - A thrown exception is an explicit [Throw] completion.
    - Integers produced by [parseInt] are [Z]; a failed parse is [None]. *)

From Stdlib Require Import Reals Lra Lia ZArith String List Bool.
Import ListNotations.

Open Scope string_scope.
Open Scope list_scope.
Open Scope R_scope.

(* ------------------------------------------------------------------ *)
(** ** JavaScript numbers *)

Module JS.

Inductive Number : Type :=
| Fin (x : R)
| NaN.

Definition lift1 (f : R -> R) (a : Number) : Number :=
  match a with
  | Fin x => Fin (f x)
  | NaN => NaN
  end.

Definition lift2 (f : R -> R -> R) (a b : Number) : Number :=
  match a, b with
  | Fin x, Fin y => Fin (f x y)
  | _, _ => NaN
  end.

Definition add : Number -> Number -> Number := lift2 Rplus.
Definition sub : Number -> Number -> Number := lift2 Rminus.
Definition mul : Number -> Number -> Number := lift2 Rmult.
Definition div : Number -> Number -> Number := lift2 Rdiv.
Definition neg : Number -> Number := lift1 Ropp.

(** [Math.round] on a finite value: the nearest integer, a tie going to
    the larger one. *)
Definition round (x : R) : R := IZR (Zfloor (x + / 2)).

Definition Math_exp : Number -> Number := lift1 exp.
Definition Math_min : Number -> Number -> Number := lift2 Rmin.
Definition Math_max : Number -> Number -> Number := lift2 Rmax.
Definition Math_round : Number -> Number := lift1 round.

Definition ofZ (z : Z) : Number := Fin (IZR z).

(** The relational operator [<=] of the language: false as soon as an
    operand is [NaN]. *)
Definition le (a b : Number) : Prop :=
  match a, b with
  | Fin x, Fin y => x <= y
  | _, _ => False
  end.

(** Completions: a call either returns or throws. *)
Inductive Exception : Type := TypeError.

Inductive Completion (A : Type) : Type :=
| Normal (a : A)
| Throw (e : Exception).
Arguments Normal {A} a.
Arguments Throw {A} e.

Definition bind {A B : Type} (c : Completion A) (k : A -> Completion B)
  : Completion B :=
  match c with
  | Normal a => k a
  | Throw e => Throw e
  end.

End JS.

Import JS.

Declare Scope js_scope.
Delimit Scope js_scope with js.
Bind Scope js_scope with Number.
Infix "+" := add : js_scope.
Infix "-" := sub : js_scope.
Infix "*" := mul : js_scope.
Infix "/" := div : js_scope.
Notation "- x" := (neg x) : js_scope.

Notation "x <- c ;; k" := (bind c (fun x => k))
  (at level 61, c at next level, right associativity).
Notation "' pat <- c ;; k" := (bind c (fun x => match x with pat => k end))
  (at level 61, pat pattern, c at next level, right associativity).

(* ------------------------------------------------------------------ *)
(** ** The species table *)

Record SpeciesData : Type := {
  name : string;
  maxAge : R;
  maxBiomass : R;
  growthRate : R;
  woodDensity : R;
  carbonFraction : R
}.

Definition teak : SpeciesData :=
  {| name := "Teak"; maxAge := 50; maxBiomass := 800;
     growthRate := 0.25; woodDensity := 0.65; carbonFraction := 0.47 |}.

Definition pine : SpeciesData :=
  {| name := "Pine"; maxAge := 40; maxBiomass := 600;
     growthRate := 0.30; woodDensity := 0.45; carbonFraction := 0.50 |}.

Definition oak : SpeciesData :=
  {| name := "Oak"; maxAge := 60; maxBiomass := 900;
     growthRate := 0.20; woodDensity := 0.72; carbonFraction := 0.48 |}.

Definition eucalyptus : SpeciesData :=
  {| name := "Eucalyptus"; maxAge := 30; maxBiomass := 500;
     growthRate := 0.35; woodDensity := 0.55; carbonFraction := 0.49 |}.

(** The own properties of the object literal [treeSpecies]. *)
Definition treeSpecies : list (string * SpeciesData) :=
  [ ("teak", teak); ("pine", pine); ("oak", oak);
    ("eucalyptus", eucalyptus) ].

(** [treeSpecies] is an ordinary object, so a key that is not an own
    property is looked up in [Object.prototype].  Each member found there is
    recorded with the value of its [name] property: the functions carry
    their name, the [__proto__] accessor yields the prototype object itself,
    which has none. *)
Definition Object_prototype : list (string * option string) :=
  [ ("constructor", Some "Object");
    ("hasOwnProperty", Some "hasOwnProperty");
    ("isPrototypeOf", Some "isPrototypeOf");
    ("propertyIsEnumerable", Some "propertyIsEnumerable");
    ("toLocaleString", Some "toLocaleString");
    ("toString", Some "toString");
    ("valueOf", Some "valueOf");
    ("__defineGetter__", Some "__defineGetter__");
    ("__defineSetter__", Some "__defineSetter__");
    ("__lookupGetter__", Some "__lookupGetter__");
    ("__lookupSetter__", Some "__lookupSetter__");
    ("__proto__", None) ].

(** The value of [treeSpecies[species]]. *)
Inductive Value : Type :=
| Undefined
| Profile (d : SpeciesData)
| Foreign (fname : option string).

Fixpoint assoc {A : Type} (key : string) (l : list (string * A)) : option A :=
  match l with
  | [] => None
  | (k, v) :: rest => if String.eqb key k then Some v else assoc key rest
  end.

Definition get_property (species : string) : Value :=
  match assoc species treeSpecies with
  | Some d => Profile d
  | None =>
      match assoc species Object_prototype with
      | Some n => Foreign n
      | None => Undefined
      end
  end.

(** Reading a numeric field [speciesData.f]: a [TypeError] on [undefined];
    on an object that is not a profile the field is [undefined], which every
    use below coerces to [NaN]. *)
Definition field (f : SpeciesData -> R) (speciesData : Value)
  : Completion Number :=
  match speciesData with
  | Undefined => Throw TypeError
  | Profile d => Normal (Fin (f d))
  | Foreign _ => Normal NaN
  end.

(** Reading [speciesData.name]; [None] stands for [undefined]. *)
Definition field_name (speciesData : Value) : Completion (option string) :=
  match speciesData with
  | Undefined => Throw TypeError
  | Profile d => Normal (Some (name d))
  | Foreign n => Normal n
  end.

(* ------------------------------------------------------------------ *)
(** ** The model *)

Definition CO2_TO_CARBON_RATIO : Number := Fin 3.67.

Definition calculateBiomass (age : Number) (speciesData : Value)
  : Completion Number :=
  K <- field maxBiomass speciesData ;;
  r <- field growthRate speciesData ;;
  let B0 := Fin 0.1 in
  let A := ((K - B0) / B0)%js in
  let biomass := (K / (Fin 1 + A * Math_exp (- r * age)))%js in
  let biomass := Math_min biomass K in
  wd <- field woodDensity speciesData ;;
  let biomass := (biomass * wd)%js in
  Normal (Math_max biomass (Fin 0)).

Record YearRecord : Type := {
  year : Z;
  biomass_per_tree : Number;
  co2_per_tree : Number;
  total_co2 : Number
}.

(** One iteration of the loop of [calculateCarbonSequestration]; the state
    is the pair of the local variables [results] and [totalCO2]. *)
Definition loop_body (speciesData : Value) (numTrees : Z) (year : Z)
  (st : list YearRecord * Number) : Completion (list YearRecord * Number) :=
  let '(results, totalCO2) := st in
  biomass <- calculateBiomass (ofZ year) speciesData ;;
  cf <- field carbonFraction speciesData ;;
  let carbonContent := (biomass * cf)%js in
  let co2PerTree := (carbonContent * CO2_TO_CARBON_RATIO)%js in
  let totalCo2ForYear := ((co2PerTree * ofZ numTrees) / Fin 1000)%js in
  let totalCO2 := (totalCO2 + totalCo2ForYear)%js in
  Normal
    (results ++
       [ {| year := year;
            biomass_per_tree := (Math_round (biomass * Fin 10) / Fin 10)%js;
            co2_per_tree := (Math_round (co2PerTree * Fin 10) / Fin 10)%js;
            total_co2 := (Math_round (totalCO2 * Fin 10) / Fin 10)%js |} ],
     totalCO2).

(** [n] iterations of [for (...; year <= years; year++)] starting at
    [year]. *)
Fixpoint for_loop (speciesData : Value) (numTrees : Z) (n : nat) (year : Z)
  (st : list YearRecord * Number) : Completion (list YearRecord * Number) :=
  match n with
  | O => Normal st
  | S n' =>
      st' <- loop_body speciesData numTrees year st ;;
      for_loop speciesData numTrees n' (year + 1)%Z st'
  end.

Record Result : Type := {
  success : bool;
  species : option string;
  num_trees : Z;
  years : Z;
  final_co2 : Number;
  results : list YearRecord
}.

Definition calculateCarbonSequestration (species : string)
  (numTrees years : Z) : Completion Result :=
  let speciesData := get_property species in
  ' (results, totalCO2) <-
      for_loop speciesData numTrees (Z.to_nat years) 1%Z ([], Fin 0) ;;
  nm <- field_name speciesData ;;
  Normal {| success := true;
            species := nm;
            num_trees := numTrees;
            years := years;
            final_co2 := Math_round totalCO2;
            results := results |}.

(** What [calculateImpact] ends up showing. *)
Inductive Outcome : Type :=
| showError (message : string)
| displayResults (data : Result).

(** [!x] for the result of [parseInt]: [NaN] and [0] are falsy. *)
Definition falsy (x : option Z) : bool :=
  match x with
  | None => true
  | Some z => (z =? 0)%Z
  end.

(** [calculateImpact], on the three values read from the form.  The
    comparisons are only reached with a parsed integer; the deferred call of
    the model runs once. *)
Definition calculateImpact (species : string) (numTrees years : option Z)
  : Outcome :=
  if (String.eqb species "" || falsy numTrees || falsy years)%bool then
    showError "Please fill in all fields"
  else
    match numTrees, years with
    | Some numTrees, Some years =>
        if ((numTrees <? 1) || (numTrees >? 100000))%Z%bool then
          showError "Number of trees must be between 1 and 100,000"
        else if ((years <? 1) || (years >? 50))%Z%bool then
          showError "Project duration must be between 1 and 50 years"
        else
          match calculateCarbonSequestration species numTrees years with
          | Normal results => displayResults results
          | Throw _ => showError "Failed to calculate impact. Please try again."
          end
    | _, _ => showError "Please fill in all fields"
    end.

(* ------------------------------------------------------------------ *)
(** ** The design document's wording of the model

    These definitions follow the text of the design document, not the
    program; the theorems below compare the two. *)

Module Spec.

(** The fixed initial biomass, in kg. *)
Definition B0 : R := 0.1.

(** [biomassAtAge]: logistic curve, clamped to the asymptote, scaled by the
    wood density, floored at zero. *)
Definition biomassAtAge (ageYears : Z) (p : SpeciesData) : R :=
  let A := (maxBiomass p - B0) / B0 in
  let raw := maxBiomass p / (1 + A * exp (- growthRate p * IZR ageYears)) in
  Rmax (Rmin raw (maxBiomass p) * woodDensity p) 0.

Definition co2PerTreeAtAge (ageYears : Z) (p : SpeciesData) : R :=
  let carbonContentKg := biomassAtAge ageYears p * carbonFraction p in
  carbonContentKg * 3.67.

Definition yearTotalTons (p : SpeciesData) (treeCount : Z) (y : Z) : R :=
  (co2PerTreeAtAge y p * IZR treeCount) / 1000.

(** The exact running total after the first [n] years. *)
Fixpoint runningTotal (p : SpeciesData) (treeCount : Z) (n : nat) : R :=
  match n with
  | O => 0
  | S m => runningTotal p treeCount m
           + yearTotalTons p treeCount (Z.of_nat (S m))
  end.

(** Rounding to one decimal place. *)
Definition round1 (x : R) : R := round (x * 10) / 10.

(** The record emitted for year [i]. *)
Definition yearRecord (p : SpeciesData) (treeCount : Z) (i : nat)
  : YearRecord :=
  {| year := Z.of_nat i;
     biomass_per_tree := Fin (round1 (biomassAtAge (Z.of_nat i) p));
     co2_per_tree := Fin (round1 (co2PerTreeAtAge (Z.of_nat i) p));
     total_co2 := Fin (round1 (runningTotal p treeCount i)) |}.

(** The validation errors of the design document, and the message of the
    program that reports each; the message shown when the model throws
    belongs to none of them. *)
Inductive ErrorKind : Type :=
| MissingField
| TreeCountOutOfRange
| DurationOutOfRange
| UnknownSpecies.

Definition kind_of_message (message : string) : option ErrorKind :=
  if String.eqb message "Please fill in all fields" then
    Some MissingField
  else if String.eqb message "Number of trees must be between 1 and 100,000"
  then Some TreeCountOutOfRange
  else if String.eqb message
            "Project duration must be between 1 and 50 years"
  then Some DurationOutOfRange
  else None.

(** A request the design document calls valid. *)
Definition valid_request (key : string) (p : SpeciesData)
  (treeCount durationYears : Z) : Prop :=
  In (key, p) treeSpecies /\
  (1 <= treeCount <= 100000)%Z /\
  (1 <= durationYears <= 50)%Z.

End Spec.

(** The record that an iteration pushes when the profile has no numeric
    field. *)
Definition nanRecord (i : nat) : YearRecord :=
  {| year := Z.of_nat i; biomass_per_tree := NaN; co2_per_tree := NaN;
     total_co2 := NaN |}.

(* ------------------------------------------------------------------ *)
(** ** The page: visibility helpers, chart, display, and the events

    The page is the part of the document and of the global state that the
    script reads and writes.  The markup itself is not part of the script,
    so every statement below is about an arbitrary initial page unless it
    says otherwise.  What the script hands to the host for rendering is left
    abstract in a [Rendering]. *)

Module UI.

(** A [classList]: a list of class names without repetition. *)
Definition classList_contains (c : string) (l : list string) : bool :=
  existsb (String.eqb c) l.

Definition classList_add (c : string) (l : list string) : list string :=
  if classList_contains c l then l else l ++ [c].

Definition classList_remove (c : string) (l : list string) : list string :=
  filter (fun x => negb (String.eqb c x)) l.

(** An instance made by [new Chart(ctx, config)]: its identity and the two
    series of the configuration that come from the results. *)
Record Chart : Type := {
  chart_id : nat;
  labels : list Z;
  data : list Number
}.

(** Host formatting, and the markup that [createTable] assembles from the
    formatted cells. *)
Record Rendering : Type := {
  toLocaleString : Number -> string;
  toString : Z -> string;
  tableMarkup : list YearRecord -> string
}.

Record Page : Type := {
  loading : list string;         (* classList of #loading *)
  results_section : list string; (* classList of #results *)
  error : list string;           (* classList of #error *)
  error_message : string;        (* textContent of the p of #error *)
  totalCo2 : string;             (* textContent of #totalCo2 *)
  resultYears : string;          (* textContent of #resultYears *)
  breakdownTable : string;       (* innerHTML of #breakdownTable *)
  co2Chart : option Chart;       (* the global variable; None is null *)
  canvas : list Chart;           (* the instances alive on #co2Chart *)
  created : nat                  (* instances made so far *)
}.

Definition set_loading (l : list string) (p : Page) : Page :=
  {| loading := l; results_section := results_section p; error := error p;
     error_message := error_message p; totalCo2 := totalCo2 p;
     resultYears := resultYears p; breakdownTable := breakdownTable p;
     co2Chart := co2Chart p; canvas := canvas p; created := created p |}.

Definition set_results_section (l : list string) (p : Page) : Page :=
  {| loading := loading p; results_section := l; error := error p;
     error_message := error_message p; totalCo2 := totalCo2 p;
     resultYears := resultYears p; breakdownTable := breakdownTable p;
     co2Chart := co2Chart p; canvas := canvas p; created := created p |}.

Definition set_error (l : list string) (message : string) (p : Page) : Page :=
  {| loading := loading p; results_section := results_section p; error := l;
     error_message := message; totalCo2 := totalCo2 p;
     resultYears := resultYears p; breakdownTable := breakdownTable p;
     co2Chart := co2Chart p; canvas := canvas p; created := created p |}.

Definition set_texts (total yrs table : string) (p : Page) : Page :=
  {| loading := loading p; results_section := results_section p;
     error := error p; error_message := error_message p; totalCo2 := total;
     resultYears := yrs; breakdownTable := table;
     co2Chart := co2Chart p; canvas := canvas p; created := created p |}.

Definition set_charts (current : option Chart) (alive : list Chart)
  (n : nat) (p : Page) : Page :=
  {| loading := loading p; results_section := results_section p;
     error := error p; error_message := error_message p;
     totalCo2 := totalCo2 p; resultYears := resultYears p;
     breakdownTable := breakdownTable p;
     co2Chart := current; canvas := alive; created := n |}.

Definition showLoading (p : Page) : Page :=
  set_loading (classList_remove "hidden" (loading p)) p.

Definition hideLoading (p : Page) : Page :=
  set_loading (classList_add "hidden" (loading p)) p.

Definition showResults (p : Page) : Page :=
  set_results_section (classList_remove "hidden" (results_section p)) p.

Definition hideResults (p : Page) : Page :=
  set_results_section (classList_add "hidden" (results_section p)) p.

Definition showError (message : string) (p : Page) : Page :=
  set_error (classList_remove "hidden" (error p)) message p.

Definition hideError (p : Page) : Page :=
  set_error (classList_add "hidden" (error p)) (error_message p) p.

(** [chart.destroy()]: the instance leaves the canvas. *)
Definition destroy (c : Chart) (p : Page) : Page :=
  set_charts (co2Chart p)
    (filter (fun x => negb (Nat.eqb (chart_id x) (chart_id c))) (canvas p))
    (created p) p.

Definition createChart (results : list YearRecord) (p : Page) : Page :=
  let p :=
    match co2Chart p with
    | Some previous => destroy previous p
    | None => p
    end in
  let years := map year results in
  let cumulativeCO2 := map total_co2 results in
  let chart :=
    {| chart_id := created p; labels := years; data := cumulativeCO2 |} in
  set_charts (Some chart) (canvas p ++ [chart]) (S (created p)) p.

Definition displayResults (R : Rendering) (data : Result) (p : Page) : Page :=
  let p :=
    set_texts (toLocaleString R (Math_round (final_co2 data)))
      (toString R (years data)) (breakdownTable p) p in
  let p := createChart (results data) p in
  let p :=
    set_texts (totalCo2 p) (resultYears p) (tableMarkup R (results data)) p in
  showResults p.

(** The page together with the calls that [setTimeout] has scheduled and
    that have not run yet, oldest first; each holds the three values its
    closure captured. *)
Record State : Type := {
  page : Page;
  timers : list (string * Z * Z)
}.

Inductive Event : Type :=
| Click (species : string) (numTrees years : option Z)
| Timeout
| SpeciesChange
| NumTreesInput
| YearsInput.

(** [calculateImpact] up to its return: the validation, then the three
    visibility changes and the scheduling. *)
Definition calculateImpact (species : string) (numTrees years : option Z)
  (s : State) : State :=
  if (String.eqb species "" || falsy numTrees || falsy years)%bool then
    {| page := showError "Please fill in all fields" (page s);
       timers := timers s |}
  else
    match numTrees, years with
    | Some numTrees, Some years =>
        if ((numTrees <? 1) || (numTrees >? 100000))%Z%bool then
          {| page :=
               showError "Number of trees must be between 1 and 100,000"
                 (page s);
             timers := timers s |}
        else if ((years <? 1) || (years >? 50))%Z%bool then
          {| page :=
               showError "Project duration must be between 1 and 50 years"
                 (page s);
             timers := timers s |}
        else
          {| page := hideError (hideResults (showLoading (page s)));
             timers := timers s ++ [(species, numTrees, years)] |}
    | _, _ =>
        {| page := showError "Please fill in all fields" (page s);
           timers := timers s |}
    end.

(** The function given to [setTimeout]: [try], [catch] and [finally]. *)
Definition timeout_callback (R : Rendering) (task : string * Z * Z)
  (p : Page) : Page :=
  let '(species, numTrees, years) := task in
  let p :=
    match calculateCarbonSequestration species numTrees years with
    | Normal results => displayResults R results p
    | Throw _ => showError "Failed to calculate impact. Please try again." p
    end in
  hideLoading p.

Definition step (R : Rendering) (s : State) (e : Event) : State :=
  match e with
  | Click species numTrees years => calculateImpact species numTrees years s
  | Timeout =>
      match timers s with
      | [] => s
      | task :: rest =>
          {| page := timeout_callback R task (page s); timers := rest |}
      end
  | SpeciesChange | NumTreesInput | YearsInput =>
      {| page := hideResults (page s); timers := timers s |}
  end.

Definition run (R : Rendering) (s : State) (events : list Event) : State :=
  fold_left (step R) events s.

Definition hidden (l : list string) : bool := classList_contains "hidden" l.

End UI.

(** At most one chart is alive, and it is the one the global holds. *)
Definition chart_invariant (p : UI.Page) : Prop :=
  UI.canvas p = match UI.co2Chart p with
                | Some c => [c]
                | None => []
                end.

(** A page on which nothing has happened yet, used to instantiate the
    statements; the class names other than [hidden] are arbitrary. *)
Definition blankPage : UI.Page :=
  {| UI.loading := ["loading"; "hidden"];
     UI.results_section := ["results"; "hidden"];
     UI.error := ["error"; "hidden"];
     UI.error_message := "";
     UI.totalCo2 := "";
     UI.resultYears := "";
     UI.breakdownTable := "";
     UI.co2Chart := None;
     UI.canvas := [];
     UI.created := 0 |}.

(** A rendering used to instantiate the statements. *)
Definition plainRendering : UI.Rendering :=
  {| UI.toLocaleString := fun _ => "";
     UI.toString := fun _ => "";
     UI.tableMarkup := fun _ => "" |}.

(** The indicator is off, or a scheduled call is still to run. *)
Definition loading_invariant (s : UI.State) : Prop :=
  UI.hidden (UI.loading (UI.page s)) = true \/ UI.timers s <> [].

(* ------------------------------------------------------------------ *)
(** ** The variant that asks a remote service

    The second script of the file replaces the model by a request to a
    service.  The reply is whatever the service sends; it is a parameter.
    The function is asynchronous; it is followed here from the click to its
    [finally] clause with nothing else happening in between. *)

Module Remote.

Record Request : Type := {
  req_species : string;
  req_num_trees : Z;
  req_years : Z
}.

(** What [fetch] and [response.json()] can give: a rejected [fetch], a
    response whose [ok] is false, a body that does not parse, or a parsed
    body: the fields that [displayResults] reads, among them [success], and
    the [error] text if there is one. *)
Inductive Reply : Type :=
| NetworkError
| NotOk (status : Z)
| Unparsable
| Parsed (data : Result) (error : option string).

Definition calculateImpact (R : UI.Rendering) (service : Request -> Reply)
  (species : string) (numTrees years : option Z) (p : UI.Page)
  : UI.Page * option Request :=
  if (String.eqb species "" || falsy numTrees || falsy years)%bool then
    (UI.showError "Please fill in all fields" p, None)
  else
    match numTrees, years with
    | Some numTrees, Some years =>
        let p := UI.hideError (UI.hideResults (UI.showLoading p)) in
        let request :=
          {| req_species := species; req_num_trees := numTrees;
             req_years := years |} in
        let failed :=
          UI.showError "Failed to calculate impact. Please try again later."
            p in
        let p :=
          match service request with
          | NetworkError | NotOk _ | Unparsable => failed
          | Parsed data _ =>
              if success data then UI.displayResults R data p else failed
          end in
        (UI.hideLoading p, Some request)
    | _, _ => (UI.showError "Please fill in all fields" p, None)
    end.

End Remote.

(** A service that refuses every request with a text of its own. *)
Definition refusingService (request : Remote.Request) : Remote.Reply :=
  Remote.Parsed
    {| success := false; species := None;
       num_trees := Remote.req_num_trees request;
       years := Remote.req_years request; final_co2 := NaN; results := [] |}
    (Some "Unknown species").

(** A service that accepts every request with one canned body. *)
Definition cannedBody : Result :=
  {| success := true; species := Some "Pine"; num_trees := 1; years := 1;
     final_co2 := Fin 12;
     results :=
       [ {| year := 1; biomass_per_tree := Fin 0.1;
            co2_per_tree := Fin 0.1; total_co2 := Fin 0.1 |} ] |}.

Definition cannedService (request : Remote.Request) : Remote.Reply :=
  Remote.Parsed cannedBody None.

(* ------------------------------------------------------------------ *)
(** ** Facts about the table *)

Lemma table_cases (key : string) (d : SpeciesData) :
  In (key, d) treeSpecies ->
  (key, d) = ("teak", teak) \/ (key, d) = ("pine", pine) \/
  (key, d) = ("oak", oak) \/ (key, d) = ("eucalyptus", eucalyptus).
Proof.
  unfold treeSpecies; simpl; intros H.
  repeat (destruct H as [H | H]; [symmetry in H; tauto | ]).
  contradiction.
Qed.

Ltac table_split H :=
  apply table_cases in H;
  destruct H as [H | [H | [H | H]]]; inversion H; subst; clear H.

Lemma table_lookup (key : string) (d : SpeciesData) :
  In (key, d) treeSpecies -> get_property key = Profile d.
Proof. intros H; table_split H; reflexivity. Qed.

Lemma table_positive (key : string) (d : SpeciesData) :
  In (key, d) treeSpecies ->
  Spec.B0 < maxBiomass d /\ 0 < growthRate d /\
  0 < woodDensity d /\ 0 < carbonFraction d.
Proof.
  intros H; table_split H; unfold Spec.B0; simpl; repeat split; lra.
Qed.

(** Ten times the asymptote [maxBiomass * woodDensity] is a whole number
    for every profile of the table. *)
Lemma table_asymptote_tenths (key : string) (d : SpeciesData) :
  In (key, d) treeSpecies ->
  exists N : Z, maxBiomass d * woodDensity d * 10 = IZR N.
Proof.
  intros H; table_split H; simpl;
    [exists 5200%Z | exists 2700%Z | exists 6480%Z | exists 2750%Z]; lra.
Qed.

(** The three kinds of lookup, and the validation on a few inputs. *)
Example lookup_teak : get_property "teak" = Profile teak.
Proof. reflexivity. Qed.

Example lookup_inherited :
  get_property "toString" = Foreign (Some "toString").
Proof. reflexivity. Qed.

Example lookup_absent : get_property "baobab" = Undefined.
Proof. reflexivity. Qed.

Example unparsed_duration :
  calculateImpact "oak" (Some 10%Z) None
  = showError "Please fill in all fields".
Proof. reflexivity. Qed.

Example negative_tree_count :
  calculateImpact "oak" (Some (-5)%Z) (Some 10%Z)
  = showError "Number of trees must be between 1 and 100,000".
Proof. reflexivity. Qed.

Example duration_too_long :
  calculateImpact "oak" (Some 10%Z) (Some 51%Z)
  = showError "Project duration must be between 1 and 50 years".
Proof. reflexivity. Qed.

(* ------------------------------------------------------------------ *)
(** ** The program on a profile: no exception, no [NaN] *)

Lemma calculateBiomass_profile (age : Z) (d : SpeciesData) :
  calculateBiomass (ofZ age) (Profile d)
  = Normal (Fin (Spec.biomassAtAge age d)).
Proof. reflexivity. Qed.

Lemma loop_body_profile (d : SpeciesData) (numTrees y : Z)
  (rs : list YearRecord) (t : R) :
  loop_body (Profile d) numTrees y (rs, Fin t)
  = Normal
      (rs ++
         [ {| year := y;
              biomass_per_tree := Fin (Spec.round1 (Spec.biomassAtAge y d));
              co2_per_tree := Fin (Spec.round1 (Spec.co2PerTreeAtAge y d));
              total_co2 :=
                Fin (Spec.round1 (t + Spec.yearTotalTons d numTrees y)) |} ],
       Fin (t + Spec.yearTotalTons d numTrees y)).
Proof. reflexivity. Qed.

(** The last iteration of the loop, split off. *)
Lemma for_loop_snoc (v : Value) (numTrees : Z) (n : nat) :
  forall (y : Z) (st : list YearRecord * Number),
    for_loop v numTrees (S n) y st
    = (st' <- for_loop v numTrees n y st ;;
       loop_body v numTrees (y + Z.of_nat n)%Z st').
Proof.
  induction n as [| n IH]; intros y st.
  - simpl. rewrite Z.add_0_r.
    destruct (loop_body v numTrees y st); reflexivity.
  - change (for_loop v numTrees (S (S n)) y st)
      with (st' <- loop_body v numTrees y st ;;
            for_loop v numTrees (S n) (y + 1)%Z st').
    change (for_loop v numTrees (S n) y st)
      with (st' <- loop_body v numTrees y st ;;
            for_loop v numTrees n (y + 1)%Z st').
    destruct (loop_body v numTrees y st) as [st1 | e]; simpl; [| reflexivity].
    specialize (IH (y + 1)%Z st1). simpl in IH. rewrite IH.
    replace (y + 1 + Z.of_nat n)%Z with (y + Z.of_nat (S n))%Z by lia.
    reflexivity.
Qed.

(** After [n] iterations on a profile the loop holds the records of the
    years [1..n] and the exact running total. *)
Lemma for_loop_profile (d : SpeciesData) (numTrees : Z) (n : nat) :
  for_loop (Profile d) numTrees n 1%Z ([], Fin 0)
  = Normal (map (Spec.yearRecord d numTrees) (seq 1 n),
            Fin (Spec.runningTotal d numTrees n)).
Proof.
  induction n as [| n IH].
  - reflexivity.
  - rewrite for_loop_snoc, IH. cbn [bind].
    rewrite loop_body_profile.
    replace (1 + Z.of_nat n)%Z with (Z.of_nat (S n)) by lia.
    rewrite seq_S, map_app. reflexivity.
Qed.

Lemma calculateCarbonSequestration_profile (key : string) (d : SpeciesData)
  (numTrees years : Z) :
  In (key, d) treeSpecies ->
  calculateCarbonSequestration key numTrees years
  = Normal
      {| success := true;
         species := Some (name d);
         num_trees := numTrees;
         years := years;
         final_co2 :=
           Fin (round (Spec.runningTotal d numTrees (Z.to_nat years)));
         results :=
           map (Spec.yearRecord d numTrees) (seq 1 (Z.to_nat years)) |}.
Proof.
  intros H. unfold calculateCarbonSequestration.
  rewrite (table_lookup _ _ H), for_loop_profile. reflexivity.
Qed.

(* ------------------------------------------------------------------ *)
(** ** Rounding *)

Lemma round_bounds (x : R) : round x - / 2 <= x < round x + / 2.
Proof. unfold round. generalize (Zfloor_bound (x + / 2)). lra. Qed.

Lemma round_le (x y : R) : x <= y -> round x <= round y.
Proof.
  intros H. unfold round. apply IZR_le, Zfloor_le. lra.
Qed.

Lemma round_IZR (z : Z) : round (IZR z) = IZR z.
Proof.
  unfold round. f_equal. apply Zfloor_eq. lra.
Qed.

Lemma round1_le (x y : R) : x <= y -> Spec.round1 x <= Spec.round1 y.
Proof.
  intros H. unfold Spec.round1.
  assert (round (x * 10) <= round (y * 10)) by (apply round_le; lra).
  lra.
Qed.

Lemma round1_nonneg (x : R) : 0 <= x -> 0 <= Spec.round1 x.
Proof.
  intros H. unfold Spec.round1.
  assert (round (IZR 0) <= round (x * 10)) by (apply round_le; lra).
  rewrite round_IZR in H0. lra.
Qed.

(** Rounding to a tenth does not cross a bound that is itself a whole
    number of tenths. *)
Lemma round1_upper (x b : R) (N : Z) :
  b * 10 = IZR N -> x <= b -> Spec.round1 x <= b.
Proof.
  intros HN H. unfold Spec.round1.
  assert (round (x * 10) <= round (IZR N)) by (apply round_le; lra).
  rewrite round_IZR in H0. lra.
Qed.

(** Rounding to a whole number and rounding to a tenth stay within one
    half of each other. *)
Lemma round_round1_gap (t : R) : Rabs (round t - Spec.round1 t) <= / 2.
Proof.
  unfold Spec.round1, round.
  set (a := Zfloor (t + / 2)). set (b := Zfloor (t * 10 + / 2)).
  assert (Ha := Zfloor_bound (t + / 2)). fold a in Ha.
  assert (Hb := Zfloor_bound (t * 10 + / 2)). fold b in Hb.
  assert (H1 : (b < 10 * a + 6)%Z).
  { apply lt_IZR. rewrite plus_IZR, mult_IZR. lra. }
  assert (H2 : (10 * a - 6 < b)%Z).
  { apply lt_IZR. rewrite minus_IZR, mult_IZR. lra. }
  assert (H3 : IZR b <= 10 * IZR a + 5).
  { replace (10 * IZR a + 5) with (IZR (10 * a + 5))
      by (rewrite plus_IZR, mult_IZR; reflexivity).
    apply IZR_le. lia. }
  assert (H4 : 10 * IZR a - 5 <= IZR b).
  { replace (10 * IZR a - 5) with (IZR (10 * a - 5))
      by (rewrite minus_IZR, mult_IZR; reflexivity).
    apply IZR_le. lia. }
  apply Rabs_le. lra.
Qed.

(* ------------------------------------------------------------------ *)
(** ** The logistic curve *)

Section Logistic.

Variable d : SpeciesData.
Hypothesis HK : Spec.B0 < maxBiomass d.
Hypothesis Hr : 0 < growthRate d.
Hypothesis Hwd : 0 < woodDensity d.

Local Abbreviation A := ((maxBiomass d - Spec.B0) / Spec.B0).

Lemma logistic_A_pos : 0 < A.
Proof.
  unfold Spec.B0 in *. apply Rdiv_lt_0_compat; lra.
Qed.

Lemma logistic_denominator_pos (age : Z) :
  0 < 1 + A * exp (- growthRate d * IZR age).
Proof.
  assert (HA := logistic_A_pos).
  assert (He := exp_pos (- growthRate d * IZR age)).
  assert (0 < A * exp (- growthRate d * IZR age))
    by (apply Rmult_lt_0_compat; assumption).
  lra.
Qed.


Lemma logistic_raw_mono (a b : Z) :
  (a <= b)%Z ->
  maxBiomass d / (1 + A * exp (- growthRate d * IZR a))
  <= maxBiomass d / (1 + A * exp (- growthRate d * IZR b)).
Proof.
  intros Hab.
  assert (HA := logistic_A_pos).
  assert (Hda := logistic_denominator_pos a).
  assert (Hdb := logistic_denominator_pos b).
  assert (Hexp : exp (- growthRate d * IZR b) <= exp (- growthRate d * IZR a)).
  { apply IZR_le in Hab.
    destruct (Req_dec (IZR a) (IZR b)) as [E | NE].
    - rewrite E. lra.
    - left. apply exp_increasing. nra. }
  unfold Rdiv. apply Rmult_le_compat_l; [unfold Spec.B0 in HK; lra |].
  apply Rinv_le_contravar; [assumption |].
  apply Rplus_le_compat_l, Rmult_le_compat_l; lra.
Qed.

Lemma biomassAtAge_nonneg (age : Z) : 0 <= Spec.biomassAtAge age d.
Proof. unfold Spec.biomassAtAge. apply Rmax_r. Qed.

Lemma biomassAtAge_upper (age : Z) :
  Spec.biomassAtAge age d <= maxBiomass d * woodDensity d.
Proof.
  unfold Spec.biomassAtAge. cbv zeta.
  apply Rmax_lub.
  - apply Rmult_le_compat_r; [lra | apply Rmin_r].
  - unfold Spec.B0 in HK. nra.
Qed.

Lemma biomassAtAge_mono (a b : Z) :
  (a <= b)%Z -> Spec.biomassAtAge a d <= Spec.biomassAtAge b d.
Proof.
  intros Hab. unfold Spec.biomassAtAge. cbv zeta. fold A.
  apply Rle_max_compat_r.
  apply Rmult_le_compat_r; [lra |].
  apply Rle_min_compat_r.
  apply logistic_raw_mono; assumption.
Qed.

End Logistic.

Lemma table_denominator_pos (key : string) (d : SpeciesData) (age : Z) :
  In (key, d) treeSpecies ->
  0 < 1 + (maxBiomass d - 0.1) / 0.1 * exp (- growthRate d * IZR age).
Proof.
  intros H. destruct (table_positive _ _ H) as (HK & _).
  exact (logistic_denominator_pos d HK age).
Qed.

Lemma pine_in_table : In ("pine", pine) treeSpecies.
Proof. simpl. tauto. Defined.

Lemma pine_request_valid : Spec.valid_request "pine" pine 1000 3.
Proof. split; [exact pine_in_table | split; lia]. Defined.

(* ------------------------------------------------------------------ *)
(** ** The biomass formula *)

(** C1. For every profile of the table and every integer age of at least
    one year, [calculateBiomass] returns the logistic value
    [K / (1 + A * exp (- r * age))] with [A = (K - 0.1) / 0.1], clamped to
    [K], then multiplied by the wood density, then floored at zero. *)
Theorem C1_biomass_formula (key : string) (d : SpeciesData) (ageYears : Z) :
  In (key, d) treeSpecies ->
  (1 <= ageYears)%Z ->
  calculateBiomass (ofZ ageYears) (get_property key)
  = Normal
      (Fin
         (Rmax
            (Rmin
               (maxBiomass d
                / (1 + (maxBiomass d - 0.1) / 0.1
                       * exp (- growthRate d * IZR ageYears)))
               (maxBiomass d)
             * woodDensity d)
            0)).
Proof.
  intros Hin _.
  rewrite (table_lookup _ _ Hin), calculateBiomass_profile.
  reflexivity.
Qed.

Lemma C1_biomass_formula_witness :
  In ("pine", pine) treeSpecies /\ (1 <= 1)%Z /\
  calculateBiomass (ofZ 1) (get_property "pine")
  = Normal
      (Fin
         (Rmax
            (Rmin
               (maxBiomass pine
                / (1 + (maxBiomass pine - 0.1) / 0.1
                       * exp (- growthRate pine * IZR 1)))
               (maxBiomass pine)
             * woodDensity pine)
            0)).
Proof.
  split; [exact pine_in_table | split; [lia |]].
  apply (C1_biomass_formula "pine" pine 1); [exact pine_in_table | lia].
Defined.

(* ------------------------------------------------------------------ *)
(** ** The yearly aggregation *)

(** C2. For a valid request and a year [y] of its range, the iteration for
    [y] takes the biomass [b] of age [y], forms
    [co2PerTree = b * carbonFraction * 3.67] and adds
    [co2PerTree * treeCount / 1000] to the running total left by the
    iterations before it; the factor 3.67 is the same for every species. *)
Theorem C2_yearly_aggregation (key : string) (d : SpeciesData)
  (treeCount durationYears y : Z) :
  Spec.valid_request key d treeCount durationYears ->
  (1 <= y <= durationYears)%Z ->
  exists (b t : R) (rs : list YearRecord) (rec : YearRecord),
    calculateBiomass (ofZ y) (get_property key) = Normal (Fin b) /\
    for_loop (get_property key) treeCount (Z.to_nat (y - 1)) 1%Z ([], Fin 0)
    = Normal (rs, Fin t) /\
    for_loop (get_property key) treeCount (Z.to_nat y) 1%Z ([], Fin 0)
    = Normal (rs ++ [rec],
              Fin (t + b * carbonFraction d * 3.67 * IZR treeCount / 1000)) /\
    year rec = y /\
    co2_per_tree rec
    = Fin (round (b * carbonFraction d * 3.67 * 10) / 10) /\
    CO2_TO_CARBON_RATIO = Fin 3.67.
Proof.
  intros (Hin & _ & _) Hy.
  rewrite (table_lookup _ _ Hin).
  exists (Spec.biomassAtAge y d),
         (Spec.runningTotal d treeCount (Z.to_nat (y - 1))),
         (map (Spec.yearRecord d treeCount) (seq 1 (Z.to_nat (y - 1)))),
         (Spec.yearRecord d treeCount (Z.to_nat y)).
  split; [apply calculateBiomass_profile |].
  split; [apply for_loop_profile |].
  replace (Z.to_nat y) with (S (Z.to_nat (y - 1))) by lia.
  split.
  - rewrite for_loop_profile, seq_S, map_app. simpl map.
    replace (1 + Z.to_nat (y - 1))%nat with (S (Z.to_nat (y - 1))) by lia.
    do 2 f_equal.
    cbn [Spec.runningTotal]. unfold Spec.yearTotalTons, Spec.co2PerTreeAtAge.
    replace (Z.of_nat (S (Z.to_nat (y - 1)))) with y by lia.
    reflexivity.
  - replace (S (Z.to_nat (y - 1))) with (Z.to_nat y) by lia.
    unfold Spec.yearRecord. cbn [year co2_per_tree].
    rewrite Z2Nat.id by lia.
    repeat split.
Qed.

Lemma C2_yearly_aggregation_witness :
  exists (b t : R) (rs : list YearRecord) (rec : YearRecord),
    calculateBiomass (ofZ 2) (get_property "pine") = Normal (Fin b) /\
    for_loop (get_property "pine") 1000 (Z.to_nat (2 - 1)) 1%Z ([], Fin 0)
    = Normal (rs, Fin t) /\
    for_loop (get_property "pine") 1000 (Z.to_nat 2) 1%Z ([], Fin 0)
    = Normal (rs ++ [rec],
              Fin (t + b * carbonFraction pine * 3.67 * IZR 1000 / 1000)) /\
    year rec = 2%Z /\
    co2_per_tree rec
    = Fin (round (b * carbonFraction pine * 3.67 * 10) / 10) /\
    CO2_TO_CARBON_RATIO = Fin 3.67.
Proof.
  apply (C2_yearly_aggregation "pine" pine 1000 3 2);
    [exact pine_request_valid | lia].
Defined.

(* ------------------------------------------------------------------ *)
(** ** Shape of the result *)

(** C3. For a valid request the model returns, and its [results] hold
    exactly [durationYears] records whose [year] fields are
    [1, 2, ..., durationYears] in that order. *)
Theorem C3_year_records (key : string) (d : SpeciesData)
  (treeCount durationYears : Z) :
  Spec.valid_request key d treeCount durationYears ->
  exists res : Result,
    calculateCarbonSequestration key treeCount durationYears = Normal res /\
    Z.of_nat (length (results res)) = durationYears /\
    map year (results res)
    = map Z.of_nat (seq 1 (Z.to_nat durationYears)).
Proof.
  intros (Hin & _ & Hy).
  eexists. split; [apply (calculateCarbonSequestration_profile _ _ _ _ Hin) |].
  cbn [results]. split.
  - rewrite length_map, length_seq. lia.
  - rewrite map_map. reflexivity.
Qed.

Lemma C3_year_records_witness :
  exists res : Result,
    calculateCarbonSequestration "pine" 1000 3 = Normal res /\
    Z.of_nat (length (results res)) = 3%Z /\
    map year (results res) = map Z.of_nat (seq 1 (Z.to_nat 3)).
Proof.
  apply (C3_year_records "pine" pine 1000 3). exact pine_request_valid.
Defined.

(** C10. For a supported species and a duration in range, two tree counts
    in range give results that agree on the [year], [biomass_per_tree] and
    [co2_per_tree] of every record (and on the echoed species and
    duration): the tree count only reaches [total_co2], [final_co2] and
    [num_trees]. *)
Theorem C10_per_tree_independent (key : string) (d : SpeciesData)
  (durationYears m n : Z) :
  In (key, d) treeSpecies ->
  (1 <= durationYears <= 50)%Z ->
  (1 <= m <= 100000)%Z ->
  (1 <= n <= 100000)%Z ->
  exists rm rn : Result,
    calculateCarbonSequestration key m durationYears = Normal rm /\
    calculateCarbonSequestration key n durationYears = Normal rn /\
    map (fun r => (year r, biomass_per_tree r, co2_per_tree r)) (results rm)
    = map (fun r => (year r, biomass_per_tree r, co2_per_tree r))
        (results rn) /\
    species rm = species rn /\
    years rm = years rn /\
    success rm = success rn.
Proof.
  intros Hin _ _ _.
  do 2 eexists.
  split; [apply (calculateCarbonSequestration_profile _ _ _ _ Hin) |].
  split; [apply (calculateCarbonSequestration_profile _ _ _ _ Hin) |].
  cbn [results species years success].
  rewrite !map_map. repeat split.
Qed.

Lemma C10_per_tree_independent_witness :
  exists rm rn : Result,
    calculateCarbonSequestration "pine" 1 3 = Normal rm /\
    calculateCarbonSequestration "pine" 100000 3 = Normal rn /\
    map (fun r => (year r, biomass_per_tree r, co2_per_tree r)) (results rm)
    = map (fun r => (year r, biomass_per_tree r, co2_per_tree r))
        (results rn) /\
    species rm = species rn /\
    years rm = years rn /\
    success rm = success rn.
Proof.
  apply (C10_per_tree_independent "pine" pine 3 1 100000);
    [exact pine_in_table | lia | lia | lia].
Defined.

(* ------------------------------------------------------------------ *)
(** ** Monotonicity and bounds *)

Lemma yearTotalTons_nonneg (key : string) (d : SpeciesData)
  (treeCount y : Z) :
  In (key, d) treeSpecies -> (0 <= treeCount)%Z ->
  0 <= Spec.yearTotalTons d treeCount y.
Proof.
  intros Hin Hn.
  destruct (table_positive _ _ Hin) as (_ & _ & _ & Hcf).
  assert (Hb := biomassAtAge_nonneg d y).
  apply IZR_le in Hn.
  unfold Spec.yearTotalTons, Spec.co2PerTreeAtAge. cbv zeta.
  assert (0 <= Spec.biomassAtAge y d * carbonFraction d)
    by (apply Rmult_le_pos; lra).
  assert (0 <= Spec.biomassAtAge y d * carbonFraction d * 3.67)
    by (apply Rmult_le_pos; lra).
  assert (0 <= Spec.biomassAtAge y d * carbonFraction d * 3.67
               * IZR treeCount)
    by (apply Rmult_le_pos; lra).
  lra.
Qed.

Lemma runningTotal_step_le (key : string) (d : SpeciesData)
  (treeCount : Z) (n : nat) :
  In (key, d) treeSpecies -> (0 <= treeCount)%Z ->
  Spec.runningTotal d treeCount n <= Spec.runningTotal d treeCount (S n).
Proof.
  intros Hin Hn. cbn [Spec.runningTotal].
  generalize (yearTotalTons_nonneg _ _ treeCount (Z.of_nat (S n)) Hin Hn).
  lra.
Qed.

Lemma nth_error_yearRecords (d : SpeciesData) (treeCount : Z) (n i : nat)
  (r : YearRecord) :
  nth_error (map (Spec.yearRecord d treeCount) (seq 1 n)) i = Some r ->
  (i < n)%nat /\ r = Spec.yearRecord d treeCount (S i).
Proof.
  intros H.
  assert (Hlt : (i < n)%nat).
  { assert (Hs : nth_error (map (Spec.yearRecord d treeCount) (seq 1 n)) i
                 <> None) by congruence.
    apply nth_error_Some in Hs. rewrite length_map, length_seq in Hs.
    exact Hs. }
  split; [exact Hlt |].
  rewrite nth_error_map in H.
  rewrite nth_error_seq in H.
  destruct (Nat.ltb_spec i n); [| lia].
  simpl in H. congruence.
Qed.

(** C4. For a valid request the model returns, and the [total_co2] of each
    record is at most the [total_co2] of the record that follows it. *)
Theorem C4_cumulative_nondecreasing (key : string) (d : SpeciesData)
  (treeCount durationYears : Z) :
  Spec.valid_request key d treeCount durationYears ->
  exists res : Result,
    calculateCarbonSequestration key treeCount durationYears = Normal res /\
    forall (i : nat) (r1 r2 : YearRecord),
      nth_error (results res) i = Some r1 ->
      nth_error (results res) (S i) = Some r2 ->
      le (total_co2 r1) (total_co2 r2).
Proof.
  intros (Hin & Hn & _).
  eexists. split; [apply (calculateCarbonSequestration_profile _ _ _ _ Hin) |].
  cbn [results]. intros i r1 r2 H1 H2.
  apply nth_error_yearRecords in H1. destruct H1 as (_ & ->).
  apply nth_error_yearRecords in H2. destruct H2 as (_ & ->).
  cbn [Spec.yearRecord total_co2 le].
  apply round1_le.
  apply (runningTotal_step_le key); [assumption | lia].
Qed.

Lemma C4_cumulative_nondecreasing_witness :
  exists res : Result,
    calculateCarbonSequestration "pine" 1000 3 = Normal res /\
    forall (i : nat) (r1 r2 : YearRecord),
      nth_error (results res) i = Some r1 ->
      nth_error (results res) (S i) = Some r2 ->
      le (total_co2 r1) (total_co2 r2).
Proof.
  apply (C4_cumulative_nondecreasing "pine" pine 1000 3).
  exact pine_request_valid.
Defined.

(** C5. For every profile of the table, the biomass returned by
    [calculateBiomass] does not decrease from age [a] to age [a + 1] for
    [a] in 1..49, never exceeds [maxBiomass * woodDensity] on 1..50, and the
    [biomass_per_tree] of every record of a valid request, rounded to one
    decimal, lies between 0 and [maxBiomass * woodDensity]. *)
Theorem C5_biomass_monotone_bounded (key : string) (d : SpeciesData) :
  In (key, d) treeSpecies ->
  (forall a : Z, (1 <= a <= 49)%Z ->
     exists x y : R,
       calculateBiomass (ofZ a) (get_property key) = Normal (Fin x) /\
       calculateBiomass (ofZ (a + 1)) (get_property key) = Normal (Fin y) /\
       x <= y) /\
  (forall a : Z, (1 <= a <= 50)%Z ->
     exists x : R,
       calculateBiomass (ofZ a) (get_property key) = Normal (Fin x) /\
       x <= maxBiomass d * woodDensity d) /\
  (forall treeCount durationYears : Z,
     (1 <= treeCount <= 100000)%Z -> (1 <= durationYears <= 50)%Z ->
     exists res : Result,
       calculateCarbonSequestration key treeCount durationYears
       = Normal res /\
       forall r : YearRecord, In r (results res) ->
         le (Fin 0) (biomass_per_tree r) /\
         le (biomass_per_tree r) (Fin (maxBiomass d * woodDensity d))).
Proof.
  intros Hin.
  destruct (table_positive _ _ Hin) as (HK & Hr & Hwd & _).
  rewrite (table_lookup _ _ Hin).
  split; [| split].
  - intros a _. do 2 eexists.
    split; [apply calculateBiomass_profile |].
    split; [apply calculateBiomass_profile |].
    apply biomassAtAge_mono; try assumption. lia.
  - intros a _. eexists.
    split; [apply calculateBiomass_profile |].
    apply biomassAtAge_upper; assumption.
  - intros treeCount durationYears _ _.
    eexists.
    split; [apply (calculateCarbonSequestration_profile _ _ _ _ Hin) |].
    cbn [results]. intros r Hr0.
    apply in_map_iff in Hr0. destruct Hr0 as (i & <- & _).
    cbn [Spec.yearRecord biomass_per_tree le]. split.
    + apply round1_nonneg, biomassAtAge_nonneg.
    + destruct (table_asymptote_tenths _ _ Hin) as (N & HN).
      apply (round1_upper _ _ N HN).
      apply biomassAtAge_upper; assumption.
Qed.

Lemma C5_biomass_monotone_bounded_witness :
  (forall a : Z, (1 <= a <= 49)%Z ->
     exists x y : R,
       calculateBiomass (ofZ a) (get_property "pine") = Normal (Fin x) /\
       calculateBiomass (ofZ (a + 1)) (get_property "pine")
       = Normal (Fin y) /\
       x <= y) /\
  (forall a : Z, (1 <= a <= 50)%Z ->
     exists x : R,
       calculateBiomass (ofZ a) (get_property "pine") = Normal (Fin x) /\
       x <= maxBiomass pine * woodDensity pine) /\
  (forall treeCount durationYears : Z,
     (1 <= treeCount <= 100000)%Z -> (1 <= durationYears <= 50)%Z ->
     exists res : Result,
       calculateCarbonSequestration "pine" treeCount durationYears
       = Normal res /\
       forall r : YearRecord, In r (results res) ->
         le (Fin 0) (biomass_per_tree r) /\
         le (biomass_per_tree r) (Fin (maxBiomass pine * woodDensity pine))).
Proof.
  apply (C5_biomass_monotone_bounded "pine" pine). exact pine_in_table.
Defined.

(* ------------------------------------------------------------------ *)
(** ** The two displayed totals *)

(** C6. For a valid request, the [total_co2] of the record of year [i] is
    the exact running total of the first [i] years rounded to one decimal
    (the rounded figure is not carried into the total), [final_co2] is the
    exact running total of all the years rounded to a whole number, and the
    last record's [total_co2] and [final_co2] are at most 0.5 apart. *)
Theorem C6_independent_rounding (key : string) (d : SpeciesData)
  (treeCount durationYears : Z) :
  Spec.valid_request key d treeCount durationYears ->
  exists res : Result,
    calculateCarbonSequestration key treeCount durationYears = Normal res /\
    (forall (i : nat) (r : YearRecord),
       nth_error (results res) i = Some r ->
       total_co2 r
       = Fin (round (Spec.runningTotal d treeCount (S i) * 10) / 10)) /\
    final_co2 res
    = Fin (round (Spec.runningTotal d treeCount (Z.to_nat durationYears))) /\
    exists (lastRecord : YearRecord) (shown final : R),
      nth_error (results res) (Z.to_nat durationYears - 1) = Some lastRecord /\
      total_co2 lastRecord = Fin shown /\
      final_co2 res = Fin final /\
      Rabs (final - shown) <= 0.5.
Proof.
  intros (Hin & _ & Hy).
  eexists. split; [apply (calculateCarbonSequestration_profile _ _ _ _ Hin) |].
  cbn [results final_co2]. split; [| split].
  - intros i r H. apply nth_error_yearRecords in H. destruct H as (_ & ->).
    reflexivity.
  - reflexivity.
  - exists (Spec.yearRecord d treeCount (Z.to_nat durationYears)).
    do 2 eexists. split; [| split; [reflexivity | split; [reflexivity |]]].
    + rewrite nth_error_map, nth_error_seq.
      destruct (Nat.ltb_spec (Z.to_nat durationYears - 1)
                  (Z.to_nat durationYears)); [| lia].
      simpl. do 2 f_equal. lia.
    + generalize
        (round_round1_gap
           (Spec.runningTotal d treeCount (Z.to_nat durationYears))).
      lra.
Qed.

Lemma C6_independent_rounding_witness :
  exists res : Result,
    calculateCarbonSequestration "pine" 1000 3 = Normal res /\
    (forall (i : nat) (r : YearRecord),
       nth_error (results res) i = Some r ->
       total_co2 r
       = Fin (round (Spec.runningTotal pine 1000 (S i) * 10) / 10)) /\
    final_co2 res
    = Fin (round (Spec.runningTotal pine 1000 (Z.to_nat 3))) /\
    exists (lastRecord : YearRecord) (shown final : R),
      nth_error (results res) (Z.to_nat 3 - 1) = Some lastRecord /\
      total_co2 lastRecord = Fin shown /\
      final_co2 res = Fin final /\
      Rabs (final - shown) <= 0.5.
Proof.
  apply (C6_independent_rounding "pine" pine 1000 3).
  exact pine_request_valid.
Defined.

(* ------------------------------------------------------------------ *)
(** ** Validation of the form *)

(** The two accepted boundaries and the upper rejected one. *)
Lemma tree_count_boundaries (key : string) (d : SpeciesData) (years : Z) :
  In (key, d) treeSpecies ->
  (1 <= years <= 50)%Z ->
  (exists res, calculateImpact key (Some 1%Z) (Some years)
               = displayResults res) /\
  (exists res, calculateImpact key (Some 100000%Z) (Some years)
               = displayResults res) /\
  calculateImpact key (Some 100001%Z) (Some years)
  = showError "Number of trees must be between 1 and 100,000" /\
  Spec.kind_of_message "Number of trees must be between 1 and 100,000"
  = Some Spec.TreeCountOutOfRange.
Proof.
  intros Hin Hy.
  assert (Hkey : String.eqb key "" = false)
    by (table_split Hin; reflexivity).
  assert (Hf : falsy (Some years) = false)
    by (simpl; apply Z.eqb_neq; lia).
  assert (Hlo : (years <? 1)%Z = false) by (apply Z.ltb_ge; lia).
  assert (Hhi : (years >? 50)%Z = false)
    by (rewrite Z.gtb_ltb; apply Z.ltb_ge; lia).
  unfold calculateImpact. rewrite Hkey, Hf. cbn [falsy Z.eqb orb].
  rewrite !(calculateCarbonSequestration_profile _ _ _ _ Hin).
  cbn [Z.ltb Z.gtb Z.compare Pos.compare Pos.compare_cont orb].
  rewrite Hlo, Hhi. cbn [orb].
  repeat split; eexists; reflexivity.
Qed.

(** C7. A tree count of 0 never reaches the range check: whatever the
    species and the duration, [calculateImpact] reports it with the message
    for an empty field, not with the one for a tree count out of range. *)
Theorem C7_zero_tree_count_reported_as_missing_field
  (species : string) (years : option Z) :
  calculateImpact species (Some 0%Z) years
  = showError "Please fill in all fields" /\
  Spec.kind_of_message "Please fill in all fields" = Some Spec.MissingField /\
  "Please fill in all fields"
  <> "Number of trees must be between 1 and 100,000".
Proof.
  split; [| split; [reflexivity | discriminate]].
  unfold calculateImpact.
  replace (String.eqb species "" || falsy (Some 0%Z) || falsy years)%bool
    with true; [reflexivity |].
  simpl. rewrite orb_true_r. reflexivity.
Qed.

(* ------------------------------------------------------------------ *)
(** ** Species that are not in the table *)

Lemma calculateBiomass_undefined (age : Number) :
  calculateBiomass age Undefined = Throw TypeError.
Proof. reflexivity. Qed.

Lemma calculateCarbonSequestration_undefined (species : string)
  (numTrees years : Z) :
  get_property species = Undefined ->
  calculateCarbonSequestration species numTrees years = Throw TypeError.
Proof.
  intros H. unfold calculateCarbonSequestration. rewrite H.
  destruct (Z.to_nat years); reflexivity.
Qed.

(** The example of the design document: the failure is the one of the
    [catch] clause, which is none of the validation errors. *)
Lemma baobab_generic_failure :
  calculateImpact "baobab" (Some 1000%Z) (Some 3%Z)
  = showError "Failed to calculate impact. Please try again." /\
  Spec.kind_of_message "Failed to calculate impact. Please try again."
  = None.
Proof. split; reflexivity. Qed.

(** C8, as stated, fails: ["constructor"] is not a species of the table,
    the tree count and the duration are in range, and yet the request does
    not fail: the lookup finds the member inherited from [Object.prototype],
    the model runs on it and a result, filled with [NaN], is displayed. *)
Lemma C8_counterexample :
  assoc "constructor" treeSpecies = None /\
  exists res : Result,
    calculateImpact "constructor" (Some 1000%Z) (Some 3%Z)
    = displayResults res /\
    success res = true /\
    species res = Some "Object" /\
    final_co2 res = NaN /\
    map biomass_per_tree (results res) = [NaN; NaN; NaN].
Proof.
  split; [reflexivity |].
  eexists. split; [reflexivity |].
  repeat split.
Qed.

(** C8, amended. For a non-empty species identifier that names no property
    of the table object, neither own nor inherited, and a tree count and a
    duration in range, the validation passes, the model is entered and
    throws a [TypeError] on its first read of the profile, before any
    biomass or CO2 value exists; no result is produced, and the message
    shown is the general failure one, which is none of the validation
    errors. *)
Theorem C8_unknown_species_throws (species : string) (numTrees years : Z) :
  species <> "" ->
  get_property species = Undefined ->
  (1 <= numTrees <= 100000)%Z ->
  (1 <= years <= 50)%Z ->
  (forall age : Number,
     calculateBiomass age (get_property species) = Throw TypeError) /\
  (forall (year : Z) (st : list YearRecord * Number),
     loop_body (get_property species) numTrees year st = Throw TypeError) /\
  calculateCarbonSequestration species numTrees years = Throw TypeError /\
  calculateImpact species (Some numTrees) (Some years)
  = showError "Failed to calculate impact. Please try again." /\
  Spec.kind_of_message "Failed to calculate impact. Please try again."
  = None.
Proof.
  intros Hne Hu Hn Hy.
  split; [intros age; rewrite Hu; reflexivity |].
  split; [intros year [rs t]; rewrite Hu; reflexivity |].
  split; [apply calculateCarbonSequestration_undefined; exact Hu |].
  split; [| reflexivity].
  unfold calculateImpact.
  apply String.eqb_neq in Hne. rewrite Hne.
  assert (Hf1 : falsy (Some numTrees) = false)
    by (simpl; apply Z.eqb_neq; lia).
  assert (Hf2 : falsy (Some years) = false)
    by (simpl; apply Z.eqb_neq; lia).
  rewrite Hf1, Hf2. cbn [orb].
  assert (Hn1 : (numTrees <? 1)%Z = false) by (apply Z.ltb_ge; lia).
  assert (Hn2 : (numTrees >? 100000)%Z = false)
    by (rewrite Z.gtb_ltb; apply Z.ltb_ge; lia).
  assert (Hy1 : (years <? 1)%Z = false) by (apply Z.ltb_ge; lia).
  assert (Hy2 : (years >? 50)%Z = false)
    by (rewrite Z.gtb_ltb; apply Z.ltb_ge; lia).
  rewrite Hn1, Hn2, Hy1, Hy2. cbn [orb].
  rewrite (calculateCarbonSequestration_undefined _ _ _ Hu).
  reflexivity.
Qed.

Lemma C8_unknown_species_throws_witness :
  "baobab" <> "" /\
  get_property "baobab" = Undefined /\
  (forall age : Number,
     calculateBiomass age (get_property "baobab") = Throw TypeError) /\
  (forall (year : Z) (st : list YearRecord * Number),
     loop_body (get_property "baobab") 1000 year st = Throw TypeError) /\
  calculateCarbonSequestration "baobab" 1000 3 = Throw TypeError /\
  calculateImpact "baobab" (Some 1000%Z) (Some 3%Z)
  = showError "Failed to calculate impact. Please try again." /\
  Spec.kind_of_message "Failed to calculate impact. Please try again."
  = None.
Proof.
  split; [discriminate | split; [reflexivity |]].
  apply (C8_unknown_species_throws "baobab" 1000 3);
    [discriminate | reflexivity | lia | lia].
Defined.

(* ------------------------------------------------------------------ *)
(** ** The pine scenario *)

Lemma exp_minus_three_tenths : 0.7 <= exp (- 0.30) <= / 1.3.
Proof.
  split.
  - generalize (exp_ineq1_le (- 0.30)). lra.
  - replace (- 0.30) with (Ropp 0.30) by lra.
    rewrite exp_Ropp.
    apply Rinv_le_contravar; [lra |].
    generalize (exp_ineq1_le 0.30). lra.
Qed.

Lemma pine_year_one_biomass :
  Spec.biomassAtAge 1 pine = 600 / (1 + 5999 * exp (- 0.30)) * 0.45 /\
  0.05 < 600 / (1 + 5999 * exp (- 0.30)) * 0.45 < 0.07.
Proof.
  destruct exp_minus_three_tenths as (Hlo & Hhi).
  assert (Hhi' : exp (- 0.30) <= 0.77).
  { eapply Rle_trans; [exact Hhi |].
    apply Rmult_le_reg_l with 1.3; [lra |].
    rewrite Rinv_r by lra. lra. }
  set (e := exp (- 0.30)) in *.
  assert (Hden : 0 < 1 + 5999 * e) by lra.
  assert (Hraw : 600 / (1 + 5999 * e) * (1 + 5999 * e) = 600)
    by (field; lra).
  set (raw := 600 / (1 + 5999 * e)) in *.
  assert (Hraw_lo : 0.12 < raw) by nra.
  assert (Hraw_hi : raw < 0.15) by nra.
  split; [| lra].
  unfold Spec.biomassAtAge, Spec.B0. cbn [maxBiomass growthRate woodDensity pine].
  replace (Ropp 0.30 * 1) with (- 0.30) by lra. fold e.
  replace ((600 - 0.1) / 0.1) with 5999 by lra. fold raw.
  rewrite Rmin_left by lra.
  rewrite Rmax_left by lra.
  reflexivity.
Qed.

Lemma pine_year_one_rounded :
  Spec.round1 (Spec.biomassAtAge 1 pine) = 0.1.
Proof.
  destruct pine_year_one_biomass as (-> & Hlo & Hhi).
  unfold Spec.round1, round.
  rewrite (Zfloor_eq 1); [lra |].
  lra.
Qed.

(** C9, as stated, fails: for pine, 1000 trees and 3 years, the year-1
    biomass per tree computed by the model is below 0.07 kg, and the record
    shows 0.1, not 1.2. *)
Lemma C9_counterexample :
  exists (res : Result) (r : YearRecord) (b : R),
    calculateCarbonSequestration "pine" 1000 3 = Normal res /\
    nth_error (results res) 0 = Some r /\
    calculateBiomass (ofZ 1) (get_property "pine") = Normal (Fin b) /\
    b < 0.07 /\
    biomass_per_tree r = Fin 0.1 /\
    biomass_per_tree r <> Fin 1.2.
Proof.
  destruct pine_year_one_biomass as (Hb & _ & Hhi).
  do 3 eexists.
  split; [apply (calculateCarbonSequestration_profile _ _ _ _ pine_in_table) |].
  split; [reflexivity |].
  split; [apply calculateBiomass_profile |].
  split; [rewrite Hb; exact Hhi |].
  cbn [Spec.yearRecord biomass_per_tree Z.of_nat Pos.of_succ_nat].
  rewrite pine_year_one_rounded.
  split; [reflexivity |].
  intros E. injection E. lra.
Qed.

(** C9, amended. For pine, 1000 trees and 3 years, the year-1 biomass per
    tree computed by the model equals [600 / (1 + 5999 * exp (- 0.30)) * 0.45],
    which lies between 0.05 and 0.07 kg, and the first record shows it
    rounded to one decimal as 0.1. *)
Theorem C9_pine_year_one :
  exists (res : Result) (r : YearRecord) (b : R),
    calculateCarbonSequestration "pine" 1000 3 = Normal res /\
    nth_error (results res) 0 = Some r /\
    year r = 1%Z /\
    calculateBiomass (ofZ 1) (get_property "pine") = Normal (Fin b) /\
    b = 600 / (1 + 5999 * exp (- 0.30)) * 0.45 /\
    0.05 < b < 0.07 /\
    biomass_per_tree r = Fin (round (b * 10) / 10) /\
    biomass_per_tree r = Fin 0.1.
Proof.
  destruct pine_year_one_biomass as (Hb & Hrange).
  do 3 eexists.
  split; [apply (calculateCarbonSequestration_profile _ _ _ _ pine_in_table) |].
  split; [reflexivity |].
  split; [reflexivity |].
  split; [apply calculateBiomass_profile |].
  split; [exact Hb |].
  split; [rewrite Hb; exact Hrange |].
  cbn [Spec.yearRecord biomass_per_tree Z.of_nat Pos.of_succ_nat].
  split; [reflexivity |].
  rewrite pine_year_one_rounded. reflexivity.
Qed.

(* ================================================================== *)
(** * Further properties of the script *)

(* ------------------------------------------------------------------ *)
(** ** The growth curve on the table *)








(* ------------------------------------------------------------------ *)
(** ** The records of a result *)

Lemma valid_request_table (key : string) (d : SpeciesData)
  (treeCount durationYears : Z) :
  Spec.valid_request key d treeCount durationYears -> In (key, d) treeSpecies.
Proof. intros (H & _). exact H. Qed.

Lemma oak_request_valid : Spec.valid_request "oak" oak 250 50.
Proof. split; [simpl; tauto | split; lia]. Defined.

(** X3. For a valid request the per-tree figures of the records never go
    down from one year to the next: neither [biomass_per_tree] nor
    [co2_per_tree]. *)
Theorem per_tree_series_nondecreasing (key : string) (d : SpeciesData)
  (treeCount durationYears : Z) :
  Spec.valid_request key d treeCount durationYears ->
  exists res : Result,
    calculateCarbonSequestration key treeCount durationYears = Normal res /\
    forall (i : nat) (r1 r2 : YearRecord),
      nth_error (results res) i = Some r1 ->
      nth_error (results res) (S i) = Some r2 ->
      le (biomass_per_tree r1) (biomass_per_tree r2) /\
      le (co2_per_tree r1) (co2_per_tree r2).
Proof.
  intros Hv. assert (Hin := valid_request_table _ _ _ _ Hv).
  destruct (table_positive _ _ Hin) as (HK & Hr & Hwd & Hcf).
  eexists. split; [apply (calculateCarbonSequestration_profile _ _ _ _ Hin) |].
  cbn [results]. intros i r1 r2 H1 H2.
  apply nth_error_yearRecords in H1. destruct H1 as (_ & ->).
  apply nth_error_yearRecords in H2. destruct H2 as (_ & ->).
  cbn [Spec.yearRecord biomass_per_tree co2_per_tree le].
  assert (Hm : Spec.biomassAtAge (Z.of_nat (S i)) d
               <= Spec.biomassAtAge (Z.of_nat (S (S i))) d)
    by (apply biomassAtAge_mono; try assumption; lia).
  split; apply round1_le; [exact Hm |].
  unfold Spec.co2PerTreeAtAge. cbv zeta.
  apply Rmult_le_compat_r; [lra |].
  apply Rmult_le_compat_r; lra.
Qed.

Lemma per_tree_series_nondecreasing_witness :
  exists res : Result,
    calculateCarbonSequestration "oak" 250 50 = Normal res /\
    forall (i : nat) (r1 r2 : YearRecord),
      nth_error (results res) i = Some r1 ->
      nth_error (results res) (S i) = Some r2 ->
      le (biomass_per_tree r1) (biomass_per_tree r2) /\
      le (co2_per_tree r1) (co2_per_tree r2).
Proof.
  apply (per_tree_series_nondecreasing "oak" oak 250 50).
  exact oak_request_valid.
Defined.

Lemma round_nonneg_integer (x : R) :
  0 <= x -> exists k : Z, (0 <= k)%Z /\ round x = IZR k.
Proof.
  intros H. exists (Zfloor (x + / 2)). split; [| reflexivity].
  apply Zfloor_lub. lra.
Qed.

Lemma runningTotal_nonneg (key : string) (d : SpeciesData)
  (treeCount : Z) (n : nat) :
  In (key, d) treeSpecies -> (0 <= treeCount)%Z ->
  0 <= Spec.runningTotal d treeCount n.
Proof.
  intros Hin Hn. induction n as [| n IH]; [simpl; lra |].
  generalize (runningTotal_step_le key d treeCount n Hin Hn). lra.
Qed.

Lemma co2PerTreeAtAge_nonneg (key : string) (d : SpeciesData) (y : Z) :
  In (key, d) treeSpecies -> 0 <= Spec.co2PerTreeAtAge y d.
Proof.
  intros Hin. destruct (table_positive _ _ Hin) as (_ & _ & _ & Hcf).
  assert (Hb := biomassAtAge_nonneg d y).
  unfold Spec.co2PerTreeAtAge. cbv zeta.
  apply Rmult_le_pos; [apply Rmult_le_pos |]; lra.
Qed.

(** X4. For a valid request every figure of the result is on its grid and
    not negative: [final_co2] is a whole number, and the three figures of
    each record are whole numbers of tenths. *)
Theorem figures_are_nonnegative_tenths (key : string) (d : SpeciesData)
  (treeCount durationYears : Z) :
  Spec.valid_request key d treeCount durationYears ->
  exists res : Result,
    calculateCarbonSequestration key treeCount durationYears = Normal res /\
    (exists k : Z, (0 <= k)%Z /\ final_co2 res = Fin (IZR k)) /\
    forall r : YearRecord, In r (results res) ->
      exists kb kc kt : Z,
        (0 <= kb)%Z /\ (0 <= kc)%Z /\ (0 <= kt)%Z /\
        biomass_per_tree r = Fin (IZR kb / 10) /\
        co2_per_tree r = Fin (IZR kc / 10) /\
        total_co2 r = Fin (IZR kt / 10).
Proof.
  intros (Hin & Hn & _).
  assert (Hn0 : (0 <= treeCount)%Z) by lia.
  eexists. split; [apply (calculateCarbonSequestration_profile _ _ _ _ Hin) |].
  cbn [results final_co2]. split.
  - destruct (round_nonneg_integer
                (Spec.runningTotal d treeCount (Z.to_nat durationYears)))
      as (k & Hk & E);
      [apply (runningTotal_nonneg key); assumption |].
    exists k. rewrite E. split; [assumption | reflexivity].
  - intros r Hr. apply in_map_iff in Hr. destruct Hr as (i & <- & _).
    cbn [Spec.yearRecord biomass_per_tree co2_per_tree total_co2].
    unfold Spec.round1.
    destruct (round_nonneg_integer
                (Spec.biomassAtAge (Z.of_nat i) d * 10)) as (kb & Hkb & Eb);
      [generalize (biomassAtAge_nonneg d (Z.of_nat i)); lra |].
    destruct (round_nonneg_integer
                (Spec.co2PerTreeAtAge (Z.of_nat i) d * 10))
      as (kc & Hkc & Ec);
      [generalize (co2PerTreeAtAge_nonneg key d (Z.of_nat i) Hin); lra |].
    destruct (round_nonneg_integer (Spec.runningTotal d treeCount i * 10))
      as (kt & Hkt & Et);
      [generalize (runningTotal_nonneg key d treeCount i Hin Hn0); lra |].
    exists kb, kc, kt. rewrite Eb, Ec, Et. repeat split; assumption.
Qed.

Lemma figures_are_nonnegative_tenths_witness :
  exists res : Result,
    calculateCarbonSequestration "oak" 250 50 = Normal res /\
    (exists k : Z, (0 <= k)%Z /\ final_co2 res = Fin (IZR k)) /\
    forall r : YearRecord, In r (results res) ->
      exists kb kc kt : Z,
        (0 <= kb)%Z /\ (0 <= kc)%Z /\ (0 <= kt)%Z /\
        biomass_per_tree r = Fin (IZR kb / 10) /\
        co2_per_tree r = Fin (IZR kc / 10) /\
        total_co2 r = Fin (IZR kt / 10).
Proof.
  apply (figures_are_nonnegative_tenths "oak" oak 250 50).
  exact oak_request_valid.
Defined.

Lemma firstn_seq_le (m start len : nat) :
  (m <= len)%nat -> firstn m (seq start len) = seq start m.
Proof.
  revert start len. induction m as [| m IH]; intros start len H.
  - reflexivity.
  - destruct len as [| len]; [lia |].
    simpl. f_equal. apply IH. lia.
Qed.

(** X5. Asking for a longer horizon does not change the earlier years: for
    a species of the table and one tree count, the records for [y1] years
    are the first [y1] records of the result for any [y2 >= y1] years. *)
Theorem shorter_horizon_is_prefix (key : string) (d : SpeciesData)
  (treeCount y1 y2 : Z) :
  In (key, d) treeSpecies ->
  (0 <= y1 <= y2)%Z ->
  exists r1 r2 : Result,
    calculateCarbonSequestration key treeCount y1 = Normal r1 /\
    calculateCarbonSequestration key treeCount y2 = Normal r2 /\
    results r1 = firstn (Z.to_nat y1) (results r2).
Proof.
  intros Hin Hy.
  do 2 eexists.
  split; [apply (calculateCarbonSequestration_profile _ _ _ _ Hin) |].
  split; [apply (calculateCarbonSequestration_profile _ _ _ _ Hin) |].
  cbn [results]. rewrite firstn_map, firstn_seq_le by lia. reflexivity.
Qed.

Lemma shorter_horizon_is_prefix_witness :
  exists r1 r2 : Result,
    calculateCarbonSequestration "oak" 250 10 = Normal r1 /\
    calculateCarbonSequestration "oak" 250 50 = Normal r2 /\
    results r1 = firstn (Z.to_nat 10) (results r2).
Proof.
  apply (shorter_horizon_is_prefix "oak" oak 250 10 50);
    [simpl; tauto | lia].
Defined.

Lemma runningTotal_linear (d : SpeciesData) (treeCount : Z) (n : nat) :
  Spec.runningTotal d treeCount n
  = IZR treeCount * Spec.runningTotal d 1 n.
Proof.
  induction n as [| n IH]; [simpl; lra |].
  cbn [Spec.runningTotal]. rewrite IH.
  unfold Spec.yearTotalTons. lra.
Qed.

(** X6. The total that the loop accumulates is proportional to the tree
    count: for a species of the table, after any number of iterations the
    unrounded [totalCO2] for [numTrees] trees is [numTrees] times the one
    for a single tree. *)
Theorem total_proportional_to_tree_count (key : string) (d : SpeciesData)
  (numTrees : Z) (n : nat) :
  In (key, d) treeSpecies ->
  exists (rs1 rsn : list YearRecord) (t1 : R),
    for_loop (get_property key) 1 n 1%Z ([], Fin 0) = Normal (rs1, Fin t1) /\
    for_loop (get_property key) numTrees n 1%Z ([], Fin 0)
    = Normal (rsn, Fin (IZR numTrees * t1)).
Proof.
  intros Hin. rewrite (table_lookup _ _ Hin).
  do 3 eexists. split; [apply for_loop_profile |].
  rewrite for_loop_profile, runningTotal_linear. reflexivity.
Qed.

Lemma total_proportional_to_tree_count_witness :
  exists (rs1 rsn : list YearRecord) (t1 : R),
    for_loop (get_property "oak") 1 7 1%Z ([], Fin 0)
    = Normal (rs1, Fin t1) /\
    for_loop (get_property "oak") 250 7 1%Z ([], Fin 0)
    = Normal (rsn, Fin (IZR 250 * t1)).
Proof.
  apply (total_proportional_to_tree_count "oak" oak 250 7). simpl. tauto.
Defined.

(* ------------------------------------------------------------------ *)
(** ** The model outside valid requests *)

(** X7. Called with a duration of zero or less, the model does not enter
    its loop: if the species resolves to anything it returns no record and
    a final total of 0; if the species is undefined it still throws, on the
    read of the species name. *)
Theorem nonpositive_duration (species : string) (numTrees years : Z) :
  (years <= 0)%Z ->
  (get_property species = Undefined ->
   calculateCarbonSequestration species numTrees years = Throw TypeError) /\
  (get_property species <> Undefined ->
   exists res : Result,
     calculateCarbonSequestration species numTrees years = Normal res /\
     results res = [] /\ final_co2 res = Fin 0).
Proof.
  intros Hy.
  assert (Hn : Z.to_nat years = 0%nat) by lia.
  assert (H0 : Math_round (Fin 0) = Fin 0).
  { unfold Math_round, lift1. f_equal. exact (round_IZR 0). }
  unfold calculateCarbonSequestration. rewrite Hn. cbn [for_loop bind].
  split; intros H.
  - rewrite H. reflexivity.
  - destruct (get_property species) as [| d | f]; [congruence | |];
      cbn [field_name bind]; eexists;
      (split; [reflexivity |]); cbn [results final_co2];
      (split; [reflexivity | exact H0]).
Qed.

Lemma nonpositive_duration_witness :
  (get_property "teak" = Undefined ->
   calculateCarbonSequestration "teak" 5 (-2) = Throw TypeError) /\
  (get_property "teak" <> Undefined ->
   exists res : Result,
     calculateCarbonSequestration "teak" 5 (-2) = Normal res /\
     results res = [] /\ final_co2 res = Fin 0).
Proof.
  apply (nonpositive_duration "teak" 5 (-2)). lia.
Defined.

Lemma loop_body_foreign (f : option string) (numTrees y : Z)
  (rs : list YearRecord) (t : Number) :
  loop_body (Foreign f) numTrees y (rs, t)
  = Normal
      (rs ++ [ {| year := y; biomass_per_tree := NaN; co2_per_tree := NaN;
                  total_co2 := NaN |} ], NaN).
Proof. destruct t; reflexivity. Qed.

Lemma for_loop_foreign (f : option string) (numTrees : Z) (n : nat) :
  for_loop (Foreign f) numTrees n 1%Z ([], Fin 0)
  = Normal (map nanRecord (seq 1 n),
            match n with O => Fin 0 | S _ => NaN end).
Proof.
  induction n as [| n IH].
  - reflexivity.
  - rewrite for_loop_snoc, IH. cbn [bind].
    rewrite loop_body_foreign.
    replace (1 + Z.of_nat n)%Z with (Z.of_nat (S n)) by lia.
    rewrite seq_S, map_app. reflexivity.
Qed.

(** X8. A species identifier that names a member inherited from
    [Object.prototype] is not rejected: with a tree count and a duration in
    range, [calculateImpact] displays a result that has one record per
    year, numbered from 1, in which every figure, and the final total, is
    [NaN]. *)
Theorem inherited_member_displays_NaN (key : string)
  (fname : option string) (numTrees duration : Z) :
  get_property key = Foreign fname ->
  (1 <= numTrees <= 100000)%Z ->
  (1 <= duration <= 50)%Z ->
  calculateImpact key (Some numTrees) (Some duration)
  = displayResults
      {| success := true;
         species := fname;
         num_trees := numTrees;
         years := duration;
         final_co2 := NaN;
         results := map nanRecord (seq 1 (Z.to_nat duration)) |}.
Proof.
  intros Hf Hn Hy.
  assert (Hne : String.eqb key "" = false).
  { apply String.eqb_neq. intros ->. discriminate Hf. }
  assert (Hf1 : falsy (Some numTrees) = false)
    by (simpl; apply Z.eqb_neq; lia).
  assert (Hf2 : falsy (Some duration) = false)
    by (simpl; apply Z.eqb_neq; lia).
  assert (Hn1 : (numTrees <? 1)%Z = false) by (apply Z.ltb_ge; lia).
  assert (Hn2 : (numTrees >? 100000)%Z = false)
    by (rewrite Z.gtb_ltb; apply Z.ltb_ge; lia).
  assert (Hy1 : (duration <? 1)%Z = false) by (apply Z.ltb_ge; lia).
  assert (Hy2 : (duration >? 50)%Z = false)
    by (rewrite Z.gtb_ltb; apply Z.ltb_ge; lia).
  unfold calculateImpact.
  rewrite Hne, Hf1, Hf2, Hn1, Hn2, Hy1, Hy2. cbn [orb].
  unfold calculateCarbonSequestration. rewrite Hf, for_loop_foreign.
  cbn [bind field_name].
  destruct (Z.to_nat duration) eqn:E; [lia |]. reflexivity.
Qed.

Lemma inherited_member_displays_NaN_witness :
  calculateImpact "toString" (Some 20%Z) (Some 2%Z)
  = displayResults
      {| success := true;
         species := Some "toString";
         num_trees := 20;
         years := 2;
         final_co2 := NaN;
         results := map nanRecord (seq 1 (Z.to_nat 2)) |}.
Proof.
  apply (inherited_member_displays_NaN "toString" (Some "toString") 20 2);
    [reflexivity | lia | lia].
Defined.

Lemma calculateCarbonSequestration_resolved (key : string)
  (numTrees duration : Z) :
  get_property key <> Undefined ->
  exists res : Result,
    calculateCarbonSequestration key numTrees duration = Normal res.
Proof.
  intros H. unfold calculateCarbonSequestration.
  destruct (get_property key) as [| d | f]; [congruence | |].
  - rewrite for_loop_profile. eexists. reflexivity.
  - rewrite for_loop_foreign. eexists. reflexivity.
Qed.

(** X9. The model throws exactly when the species identifier resolves to
    nothing, whatever the tree count and the duration, and it throws a
    [TypeError]; for every other identifier it returns a result. *)
Theorem model_throws_iff_unresolved (key : string) (numTrees duration : Z) :
  (calculateCarbonSequestration key numTrees duration = Throw TypeError
   <-> get_property key = Undefined) /\
  ((exists res : Result,
      calculateCarbonSequestration key numTrees duration = Normal res)
   <-> get_property key <> Undefined).
Proof.
  split; split.
  - intros H. destruct (get_property key) eqn:E; [reflexivity | |];
      destruct (calculateCarbonSequestration_resolved key numTrees duration)
        as (res & Hres); try congruence.
  - apply calculateCarbonSequestration_undefined.
  - intros (res & Hres) E.
    rewrite (calculateCarbonSequestration_undefined _ _ _ E) in Hres.
    discriminate.
  - apply calculateCarbonSequestration_resolved.
Qed.

(* ------------------------------------------------------------------ *)
(** ** The decision table of the validation *)

Lemma falsy_false (x : option Z) :
  falsy x = false <-> exists z : Z, x = Some z /\ z <> 0%Z.
Proof.
  destruct x as [z |]; simpl.
  - rewrite Z.eqb_neq. split.
    + intros H. exists z. split; [reflexivity | assumption].
    + intros (z' & E & H). congruence.
  - split; [discriminate | intros (z & E & _); discriminate].
Qed.

Lemma out_of_range_false (lo hi z : Z) :
  ((z <? lo) || (z >? hi))%Z%bool = false <-> (lo <= z <= hi)%Z.
Proof.
  rewrite orb_false_iff, Z.ltb_ge, Z.gtb_ltb, Z.ltb_ge. tauto.
Qed.

(** X10. [calculateImpact] displays a result exactly when the species field
    is not empty and resolves to something, and both numbers parsed to
    integers with the tree count in 1..100000 and the duration in 1..50. *)
Theorem calculateImpact_displays_iff (key : string)
  (numTrees duration : option Z) :
  (exists data : Result,
     calculateImpact key numTrees duration = displayResults data)
  <->
  key <> "" /\ get_property key <> Undefined /\
  exists n y : Z,
    numTrees = Some n /\ duration = Some y /\
    (1 <= n <= 100000)%Z /\ (1 <= y <= 50)%Z.
Proof.
  unfold calculateImpact. split.
  - intros (data & H).
    destruct (String.eqb key "") eqn:Ek; [discriminate H |].
    destruct (falsy numTrees) eqn:En; [discriminate H |].
    destruct (falsy duration) eqn:Ey; [discriminate H |].
    cbn [orb] in H.
    apply falsy_false in En. destruct En as (n & -> & _).
    apply falsy_false in Ey. destruct Ey as (y & -> & _).
    destruct ((n <? 1) || (n >? 100000))%Z%bool eqn:Rn; [discriminate H |].
    destruct ((y <? 1) || (y >? 50))%Z%bool eqn:Ry; [discriminate H |].
    apply out_of_range_false in Rn. apply out_of_range_false in Ry.
    split; [apply String.eqb_neq; exact Ek |].
    split.
    + intros E.
      rewrite (calculateCarbonSequestration_undefined _ _ _ E) in H.
      discriminate H.
    + exists n, y. repeat split; lia.
  - intros (Hk & Hu & n & y & -> & -> & Hn & Hy).
    apply String.eqb_neq in Hk. rewrite Hk.
    assert (En : falsy (Some n) = false)
      by (apply falsy_false; exists n; split; [reflexivity | lia]).
    assert (Ey : falsy (Some y) = false)
      by (apply falsy_false; exists y; split; [reflexivity | lia]).
    rewrite En, Ey. cbn [orb].
    apply out_of_range_false in Hn. apply out_of_range_false in Hy.
    rewrite Hn, Hy.
    destruct (calculateCarbonSequestration_resolved key n y Hu) as (res & ->).
    exists res. reflexivity.
Qed.

(** X11. The message for an empty field is shown exactly when the species
    is empty or one of the two numbers did not parse or is 0, whatever the
    other fields hold. *)
Theorem missing_field_message_iff (key : string)
  (numTrees duration : option Z) :
  calculateImpact key numTrees duration
  = showError "Please fill in all fields"
  <->
  key = "" \/ numTrees = None \/ numTrees = Some 0%Z \/
  duration = None \/ duration = Some 0%Z.
Proof.
  unfold calculateImpact. split.
  - intros H.
    destruct (String.eqb key "") eqn:Ek;
      [left; apply String.eqb_eq; exact Ek |].
    destruct numTrees as [n |]; [| tauto].
    destruct duration as [y |]; [| tauto].
    cbn [falsy orb] in H.
    destruct (n =? 0)%Z eqn:En;
      [apply Z.eqb_eq in En; subst; tauto |].
    destruct (y =? 0)%Z eqn:Ey;
      [apply Z.eqb_eq in Ey; subst; tauto |].
    cbn [orb] in H.
    destruct ((n <? 1) || (n >? 100000))%Z%bool; [discriminate H |].
    destruct ((y <? 1) || (y >? 50))%Z%bool; [discriminate H |].
    destruct (calculateCarbonSequestration key n y); discriminate H.
  - intros [-> | [-> | [-> | [-> | ->]]]].
    + reflexivity.
    + rewrite orb_true_r. reflexivity.
    + rewrite orb_true_r. reflexivity.
    + rewrite orb_true_r. reflexivity.
    + cbn [falsy Z.eqb]. rewrite orb_true_r. reflexivity.
Qed.

(** X12. The two range messages.  The tree-count message is shown exactly
    when the species is not empty, both numbers are non-zero integers and
    the tree count is outside 1..100000, whatever the duration; the
    duration message is shown exactly when, moreover, the tree count is
    inside its range and the duration outside 1..50. *)
Theorem range_messages_iff (key : string) (numTrees duration : option Z) :
  (calculateImpact key numTrees duration
   = showError "Number of trees must be between 1 and 100,000"
   <->
   key <> "" /\
   exists n y : Z,
     numTrees = Some n /\ duration = Some y /\ y <> 0%Z /\
     (n < 0 \/ 100000 < n)%Z) /\
  (calculateImpact key numTrees duration
   = showError "Project duration must be between 1 and 50 years"
   <->
   key <> "" /\
   exists n y : Z,
     numTrees = Some n /\ duration = Some y /\
     (1 <= n <= 100000)%Z /\ (y < 0 \/ 50 < y)%Z).
Proof.
  unfold calculateImpact.
  destruct (String.eqb key "") eqn:Ek.
  { apply String.eqb_eq in Ek. cbn [orb].
    split; (split; [discriminate | intros (Hk & _); contradiction]). }
  assert (Hk : key <> "") by (apply String.eqb_neq; exact Ek).
  destruct numTrees as [n |];
    [| cbn [falsy orb];
       split; (split; [discriminate
                      | intros (_ & n & y & E & _); discriminate E])].
  destruct duration as [y |];
    [| cbn [falsy orb]; rewrite orb_true_r;
       split; (split; [discriminate
                      | intros (_ & n' & y & _ & E & _); discriminate E])].
  cbn [falsy orb].
  destruct (Z.eqb_spec n 0) as [-> | Hn0].
  { cbn [orb].
    split; (split; [discriminate
                   | intros (_ & n' & y' & E1 & E2 & H);
                     injection E1 as <-; lia]). }
  destruct (Z.eqb_spec y 0) as [-> | Hy0].
  { cbn [orb].
    split; (split; [discriminate
                   | intros (_ & n' & y' & E1 & E2 & H);
                     injection E1 as <-; injection E2 as <-; lia]). }
  cbn [orb].
  destruct ((n <? 1) || (n >? 100000))%Z%bool eqn:Rn.
  - assert (Hn : ~ (1 <= n <= 100000)%Z).
    { intros H. apply out_of_range_false in H. congruence. }
    split; split.
    + intros _. split; [exact Hk |]. exists n, y.
      repeat split; try assumption. lia.
    + reflexivity.
    + discriminate.
    + intros (_ & n' & y' & E1 & E2 & H & _). injection E1 as <-. lia.
  - apply out_of_range_false in Rn.
    destruct ((y <? 1) || (y >? 50))%Z%bool eqn:Ry.
    + assert (Hy : ~ (1 <= y <= 50)%Z).
      { intros H. apply out_of_range_false in H. congruence. }
      split; split.
      * discriminate.
      * intros (_ & n' & y' & E1 & _ & _ & H). injection E1 as <-. lia.
      * intros _. split; [exact Hk |]. exists n, y.
        repeat split; try lia.
      * reflexivity.
    + apply out_of_range_false in Ry.
      destruct (calculateCarbonSequestration key n y); split; split;
        try discriminate;
        intros (_ & n' & y' & E1 & E2 & H);
        injection E1 as <-; injection E2 as <-; lia.
Qed.

(* ------------------------------------------------------------------ *)
(** ** Visibility on the page *)

Lemma classList_contains_add (c : string) (l : list string) :
  UI.classList_contains c (UI.classList_add c l) = true.
Proof.
  unfold UI.classList_add.
  destruct (UI.classList_contains c l) eqn:E; [exact E |].
  unfold UI.classList_contains. rewrite existsb_app. simpl.
  rewrite String.eqb_refl, orb_true_r. reflexivity.
Qed.

Lemma classList_contains_remove (c : string) (l : list string) :
  UI.classList_contains c (UI.classList_remove c l) = false.
Proof.
  unfold UI.classList_contains, UI.classList_remove.
  induction l as [| x l IH]; [reflexivity |].
  simpl. destruct (String.eqb c x) eqn:E; simpl; [exact IH |].
  rewrite E. exact IH.
Qed.

Lemma hidden_after_hideLoading (p : UI.Page) :
  UI.hidden (UI.loading (UI.hideLoading p)) = true.
Proof. apply classList_contains_add. Qed.

Lemma createChart_invariant (rs : list YearRecord) (p : UI.Page) :
  chart_invariant p -> chart_invariant (UI.createChart rs p).
Proof.
  unfold chart_invariant, UI.createChart. intros H.
  destruct (UI.co2Chart p) as [c |] eqn:E.
  - cbn. rewrite H. cbn. rewrite Nat.eqb_refl. reflexivity.
  - cbn. rewrite H. reflexivity.
Qed.

Lemma displayResults_invariant (R : UI.Rendering) (data : Result)
  (p : UI.Page) :
  chart_invariant p -> chart_invariant (UI.displayResults R data p).
Proof.
  intros H. unfold UI.displayResults.
  set (p1 := UI.set_texts _ _ _ p).
  assert (H1 : chart_invariant p1) by exact H.
  apply (createChart_invariant (results data)) in H1.
  exact H1.
Qed.

Lemma step_chart_invariant (R : UI.Rendering) (s : UI.State) (e : UI.Event) :
  chart_invariant (UI.page s) -> chart_invariant (UI.page (UI.step R s e)).
Proof.
  intros H. destruct e as [key n y | | | |]; cbn [UI.step].
  - unfold UI.calculateImpact.
    destruct (String.eqb key "" || falsy n || falsy y)%bool; [exact H |].
    destruct n as [n |]; [| exact H].
    destruct y as [y |]; [| exact H].
    destruct ((n <? 1) || (n >? 100000))%Z%bool; [exact H |].
    destruct ((y <? 1) || (y >? 50))%Z%bool; exact H.
  - destruct (UI.timers s) as [| [[key n] y] rest]; [exact H |].
    cbn [UI.page UI.timeout_callback].
    destruct (calculateCarbonSequestration key n y) as [res | e].
    + apply (displayResults_invariant R res) in H. exact H.
    + exact H.
  - exact H.
  - exact H.
  - exact H.
Qed.

Lemma step_loading_invariant (R : UI.Rendering) (s : UI.State)
  (e : UI.Event) :
  loading_invariant s -> loading_invariant (UI.step R s e).
Proof.
  unfold loading_invariant. intros H.
  destruct e as [key n y | | | |]; cbn [UI.step].
  - unfold UI.calculateImpact.
    destruct (String.eqb key "" || falsy n || falsy y)%bool; [exact H |].
    destruct n as [n |]; [| exact H].
    destruct y as [y |]; [| exact H].
    destruct ((n <? 1) || (n >? 100000))%Z%bool; [exact H |].
    destruct ((y <? 1) || (y >? 50))%Z%bool; [exact H |].
    right. cbn [UI.timers]. intros E. apply app_eq_nil in E.
    destruct E as (_ & E). discriminate E.
  - destruct (UI.timers s) as [| task rest];
      [destruct H as [H | H]; [left; exact H | congruence] |].
    left. cbn [UI.page]. destruct task as [[key n] y].
    unfold UI.timeout_callback. apply hidden_after_hideLoading.
  - exact H.
  - exact H.
  - exact H.
Qed.

Lemma run_invariant (Inv : UI.State -> Prop) (R : UI.Rendering) :
  (forall s e, Inv s -> Inv (UI.step R s e)) ->
  forall (events : list UI.Event) (s : UI.State),
    Inv s -> Inv (UI.run R s events).
Proof.
  intros Hstep events.
  induction events as [| e events IH]; intros s H; [exact H |].
  cbn [UI.run fold_left]. apply IH, Hstep, H.
Qed.

(** X13. The loading indicator is never left on: on a page whose indicator
    is hidden and that has no scheduled call, after any sequence of clicks,
    input changes and timer expiries, if no scheduled call remains then the
    indicator is hidden. *)
Theorem loading_off_when_idle (R : UI.Rendering) (p0 : UI.Page)
  (events : list UI.Event) :
  UI.hidden (UI.loading p0) = true ->
  UI.timers (UI.run R {| UI.page := p0; UI.timers := [] |} events) = [] ->
  UI.hidden
    (UI.loading
       (UI.page (UI.run R {| UI.page := p0; UI.timers := [] |} events)))
  = true.
Proof.
  intros H0 Hidle.
  assert (Hinv : loading_invariant
                   (UI.run R {| UI.page := p0; UI.timers := [] |} events)).
  { apply run_invariant; [apply step_loading_invariant |].
    left. exact H0. }
  destruct Hinv as [H | H]; [exact H | contradiction].
Qed.

Lemma loading_off_when_idle_witness :
  UI.hidden
    (UI.loading
       (UI.page
          (UI.run plainRendering
             {| UI.page := blankPage; UI.timers := [] |}
             [ UI.Click "pine" (Some 1000%Z) (Some 3%Z);
               UI.Click "oak" (Some 0%Z) (Some 3%Z);
               UI.Timeout ])))
  = true.
Proof.
  apply (loading_off_when_idle plainRendering blankPage
           [ UI.Click "pine" (Some 1000%Z) (Some 3%Z);
             UI.Click "oak" (Some 0%Z) (Some 3%Z);
             UI.Timeout ]); reflexivity.
Defined.

(** X14. The chart never leaks: starting with no chart, after any sequence
    of clicks, input changes and timer expiries the canvas holds no chart
    if the global is null, and otherwise exactly the chart the global
    holds; every earlier one has been destroyed. *)
Theorem one_chart_alive (R : UI.Rendering) (s0 : UI.State)
  (events : list UI.Event) :
  UI.co2Chart (UI.page s0) = None ->
  UI.canvas (UI.page s0) = [] ->
  UI.canvas (UI.page (UI.run R s0 events))
  = match UI.co2Chart (UI.page (UI.run R s0 events)) with
    | Some c => [c]
    | None => []
    end.
Proof.
  intros Hc Hv.
  apply (run_invariant (fun s => chart_invariant (UI.page s)) R
           (step_chart_invariant R) events s0).
  unfold chart_invariant. rewrite Hc. exact Hv.
Qed.

Lemma one_chart_alive_witness :
  UI.canvas
    (UI.page
       (UI.run plainRendering {| UI.page := blankPage; UI.timers := [] |}
          [ UI.Click "pine" (Some 1000%Z) (Some 3%Z); UI.Timeout;
            UI.Click "oak" (Some 5%Z) (Some 2%Z); UI.Timeout ]))
  = match
      UI.co2Chart
        (UI.page
           (UI.run plainRendering
              {| UI.page := blankPage; UI.timers := [] |}
              [ UI.Click "pine" (Some 1000%Z) (Some 3%Z); UI.Timeout;
                UI.Click "oak" (Some 5%Z) (Some 2%Z); UI.Timeout ]))
    with
    | Some c => [c]
    | None => []
    end.
Proof.
  apply (one_chart_alive plainRendering
           {| UI.page := blankPage; UI.timers := [] |}
           [ UI.Click "pine" (Some 1000%Z) (Some 3%Z); UI.Timeout;
             UI.Click "oak" (Some 5%Z) (Some 2%Z); UI.Timeout ]);
    reflexivity.
Defined.

Ltac page_simpl :=
  unfold UI.hidden, UI.destroy, UI.set_loading, UI.set_results_section,
    UI.set_error, UI.set_texts, UI.set_charts;
  cbn [UI.loading UI.results_section UI.error UI.error_message UI.totalCo2
       UI.resultYears UI.breakdownTable UI.co2Chart UI.canvas UI.created
       UI.labels UI.data UI.chart_id].

Lemma displayResults_page (R : UI.Rendering) (data : Result) (p : UI.Page) :
  UI.loading (UI.displayResults R data p) = UI.loading p /\
  UI.error (UI.displayResults R data p) = UI.error p /\
  UI.error_message (UI.displayResults R data p) = UI.error_message p /\
  UI.hidden (UI.results_section (UI.displayResults R data p)) = false /\
  UI.totalCo2 (UI.displayResults R data p)
  = UI.toLocaleString R (Math_round (final_co2 data)) /\
  UI.resultYears (UI.displayResults R data p) = UI.toString R (years data) /\
  UI.breakdownTable (UI.displayResults R data p)
  = UI.tableMarkup R (results data) /\
  exists chart : UI.Chart,
    UI.co2Chart (UI.displayResults R data p) = Some chart /\
    UI.labels chart = map year (results data) /\
    UI.data chart = map total_co2 (results data).
Proof.
  unfold UI.displayResults, UI.showResults, UI.createChart.
  page_simpl.
  destruct (UI.co2Chart p) eqn:E; page_simpl;
    repeat (split; [reflexivity || apply classList_contains_remove |]);
    eexists; repeat split.
Qed.

Lemma Math_round_idempotent (x : Number) :
  Math_round (Math_round x) = Math_round x.
Proof.
  destruct x as [x |]; [| reflexivity].
  unfold Math_round, lift1, round at 1. f_equal.
  apply (round_IZR (Zfloor (x + / 2))).
Qed.

Lemma valid_click (key : string) (n y : Z) (s : UI.State) :
  key <> "" -> (1 <= n <= 100000)%Z -> (1 <= y <= 50)%Z ->
  UI.calculateImpact key (Some n) (Some y) s
  = {| UI.page := UI.hideError (UI.hideResults (UI.showLoading (UI.page s)));
       UI.timers := UI.timers s ++ [(key, n, y)] |}.
Proof.
  intros Hk Hn Hy. unfold UI.calculateImpact.
  apply String.eqb_neq in Hk. rewrite Hk.
  assert (En : falsy (Some n) = false)
    by (apply falsy_false; exists n; split; [reflexivity | lia]).
  assert (Ey : falsy (Some y) = false)
    by (apply falsy_false; exists y; split; [reflexivity | lia]).
  rewrite En, Ey. cbn [orb].
  apply out_of_range_false in Hn. apply out_of_range_false in Hy.
  rewrite Hn, Hy. reflexivity.
Qed.

Lemma table_key_nonempty (key : string) (d : SpeciesData) :
  In (key, d) treeSpecies -> key <> "".
Proof. intros H; table_split H; discriminate. Qed.

(** X15. A valid request on an idle page, whatever was on it: once the
    scheduled call has run, the loading indicator and the error box are
    hidden, the results are visible, the headline shows [final_co2] itself
    (rounding it again changes nothing), and the chart the global holds
    plots the years [1..durationYears] against a series that never goes
    down. *)
Theorem valid_request_page (R : UI.Rendering) (p : UI.Page)
  (key : string) (d : SpeciesData) (treeCount durationYears : Z) :
  Spec.valid_request key d treeCount durationYears ->
  exists (res : Result) (chart : UI.Chart),
    calculateCarbonSequestration key treeCount durationYears = Normal res /\
    let s := UI.run R {| UI.page := p; UI.timers := [] |}
               [ UI.Click key (Some treeCount) (Some durationYears);
                 UI.Timeout ] in
    UI.timers s = [] /\
    UI.hidden (UI.loading (UI.page s)) = true /\
    UI.hidden (UI.error (UI.page s)) = true /\
    UI.hidden (UI.results_section (UI.page s)) = false /\
    UI.totalCo2 (UI.page s) = UI.toLocaleString R (final_co2 res) /\
    UI.co2Chart (UI.page s) = Some chart /\
    UI.labels chart = map Z.of_nat (seq 1 (Z.to_nat durationYears)) /\
    length (UI.data chart) = Z.to_nat durationYears /\
    forall (i : nat) (a b : Number),
      nth_error (UI.data chart) i = Some a ->
      nth_error (UI.data chart) (S i) = Some b ->
      le a b.
Proof.
  intros (Hin & Hn & Hy).
  assert (Hres := calculateCarbonSequestration_profile key d treeCount
                    durationYears Hin).
  set (res := {| success := true; species := Some (name d);
                 num_trees := treeCount; years := durationYears;
                 final_co2 :=
                   Fin (round (Spec.runningTotal d treeCount
                                 (Z.to_nat durationYears)));
                 results :=
                   map (Spec.yearRecord d treeCount)
                     (seq 1 (Z.to_nat durationYears)) |}) in *.
  cbn [UI.run fold_left UI.step].
  rewrite (valid_click key treeCount durationYears _
             (table_key_nonempty _ _ Hin) Hn Hy).
  cbn [UI.timers UI.page app UI.timeout_callback]. rewrite Hres.
  set (q := UI.hideError (UI.hideResults (UI.showLoading p))).
  destruct (displayResults_page R res q)
    as (Hl & He & _ & Hr & Ht & _ & _ & chart & Hc & Hlab & Hdat).
  exists res, chart. split; [reflexivity |]. cbv zeta.
  split; [reflexivity |].
  split; [apply hidden_after_hideLoading |].
  split.
  { change (UI.error (UI.hideLoading (UI.displayResults R res q)))
      with (UI.error (UI.displayResults R res q)).
    rewrite He. apply classList_contains_add. }
  split; [exact Hr |].
  split.
  { change (UI.totalCo2 (UI.hideLoading (UI.displayResults R res q)))
      with (UI.totalCo2 (UI.displayResults R res q)).
    rewrite Ht. f_equal.
    exact (Math_round_idempotent
             (Fin (Spec.runningTotal d treeCount (Z.to_nat durationYears)))). }
  split; [exact Hc |].
  split; [rewrite Hlab; unfold res; cbn [results];
          rewrite map_map; reflexivity |].
  split; [rewrite Hdat; unfold res; cbn [results];
          rewrite !length_map, length_seq; reflexivity |].
  intros i a b Ha Hb. rewrite Hdat in Ha, Hb.
  unfold res in Ha, Hb. cbn [results] in Ha, Hb.
  rewrite nth_error_map in Ha, Hb.
  destruct (nth_error (map (Spec.yearRecord d treeCount)
                         (seq 1 (Z.to_nat durationYears))) i)
    as [r1 |] eqn:E1; [| discriminate Ha].
  destruct (nth_error (map (Spec.yearRecord d treeCount)
                         (seq 1 (Z.to_nat durationYears))) (S i))
    as [r2 |] eqn:E2; [| discriminate Hb].
  apply nth_error_yearRecords in E1. destruct E1 as (_ & ->).
  apply nth_error_yearRecords in E2. destruct E2 as (_ & ->).
  cbn [option_map] in Ha, Hb.
  assert (Ea : a = total_co2 (Spec.yearRecord d treeCount (S i)))
    by congruence.
  assert (Eb : b = total_co2 (Spec.yearRecord d treeCount (S (S i))))
    by congruence.
  rewrite Ea, Eb. cbn [Spec.yearRecord total_co2 le]. apply round1_le.
  apply (runningTotal_step_le key); [assumption | lia].
Qed.

Lemma valid_request_page_witness :
  exists (res : Result) (chart : UI.Chart),
    calculateCarbonSequestration "oak" 250 50 = Normal res /\
    let s := UI.run plainRendering
               {| UI.page := blankPage; UI.timers := [] |}
               [ UI.Click "oak" (Some 250%Z) (Some 50%Z); UI.Timeout ] in
    UI.timers s = [] /\
    UI.hidden (UI.loading (UI.page s)) = true /\
    UI.hidden (UI.error (UI.page s)) = true /\
    UI.hidden (UI.results_section (UI.page s)) = false /\
    UI.totalCo2 (UI.page s)
    = UI.toLocaleString plainRendering (final_co2 res) /\
    UI.co2Chart (UI.page s) = Some chart /\
    UI.labels chart = map Z.of_nat (seq 1 (Z.to_nat 50)) /\
    length (UI.data chart) = Z.to_nat 50 /\
    forall (i : nat) (a b : Number),
      nth_error (UI.data chart) i = Some a ->
      nth_error (UI.data chart) (S i) = Some b ->
      le a b.
Proof.
  apply (valid_request_page plainRendering blankPage "oak" oak 250 50).
  exact oak_request_valid.
Defined.

(** X16. While a valid click waits for its timer, the loading indicator is
    shown and both the results and the error box are hidden; the call is
    queued behind the ones already scheduled.  Only the species being
    non-empty and the two ranges matter here, not whether the species
    exists. *)
Theorem pending_click_page (R : UI.Rendering) (key : string) (n y : Z)
  (s : UI.State) :
  key <> "" -> (1 <= n <= 100000)%Z -> (1 <= y <= 50)%Z ->
  let s' := UI.step R s (UI.Click key (Some n) (Some y)) in
  UI.timers s' = UI.timers s ++ [(key, n, y)] /\
  UI.hidden (UI.loading (UI.page s')) = false /\
  UI.hidden (UI.results_section (UI.page s')) = true /\
  UI.hidden (UI.error (UI.page s')) = true.
Proof.
  intros Hk Hn Hy. cbn [UI.step]. rewrite (valid_click key n y s Hk Hn Hy).
  cbv zeta. cbn [UI.timers UI.page].
  unfold UI.hideError, UI.hideResults, UI.showLoading. page_simpl.
  split; [reflexivity |].
  split; [apply classList_contains_remove |].
  split; apply classList_contains_add.
Qed.

Lemma pending_click_page_witness :
  let s' := UI.step plainRendering
              {| UI.page := blankPage; UI.timers := [] |}
              (UI.Click "baobab" (Some 7%Z) (Some 50%Z)) in
  UI.timers s' = [] ++ [("baobab", 7%Z, 50%Z)] /\
  UI.hidden (UI.loading (UI.page s')) = false /\
  UI.hidden (UI.results_section (UI.page s')) = true /\
  UI.hidden (UI.error (UI.page s')) = true.
Proof.
  apply (pending_click_page plainRendering "baobab" 7 50
           {| UI.page := blankPage; UI.timers := [] |});
    [discriminate | lia | lia].
Defined.

(** X17. A species that resolves to nothing, on an idle page: once the
    scheduled call has run, the error box is visible with the general
    failure message, the results and the loading indicator are hidden, and
    the headline, the table and the chart are the ones that were there
    before. *)
Theorem unresolved_species_page (R : UI.Rendering) (p : UI.Page)
  (key : string) (n y : Z) :
  key <> "" -> get_property key = Undefined ->
  (1 <= n <= 100000)%Z -> (1 <= y <= 50)%Z ->
  let s := UI.run R {| UI.page := p; UI.timers := [] |}
             [ UI.Click key (Some n) (Some y); UI.Timeout ] in
  UI.timers s = [] /\
  UI.hidden (UI.loading (UI.page s)) = true /\
  UI.hidden (UI.error (UI.page s)) = false /\
  UI.error_message (UI.page s)
  = "Failed to calculate impact. Please try again." /\
  UI.hidden (UI.results_section (UI.page s)) = true /\
  UI.totalCo2 (UI.page s) = UI.totalCo2 p /\
  UI.breakdownTable (UI.page s) = UI.breakdownTable p /\
  UI.co2Chart (UI.page s) = UI.co2Chart p /\
  UI.canvas (UI.page s) = UI.canvas p.
Proof.
  intros Hk Hu Hn Hy.
  cbn [UI.run fold_left UI.step].
  rewrite (valid_click key n y _ Hk Hn Hy).
  cbn [UI.timers UI.page app UI.timeout_callback].
  rewrite (calculateCarbonSequestration_undefined _ _ _ Hu).
  cbv zeta.
  unfold UI.hideLoading, UI.showError, UI.hideError, UI.hideResults,
    UI.showLoading.
  page_simpl.
  split; [reflexivity |].
  split; [apply classList_contains_add |].
  split; [apply classList_contains_remove |].
  split; [reflexivity |].
  split; [apply classList_contains_add |].
  repeat split.
Qed.

Lemma unresolved_species_page_witness :
  let s := UI.run plainRendering
             {| UI.page := blankPage; UI.timers := [] |}
             [ UI.Click "baobab" (Some 7%Z) (Some 50%Z); UI.Timeout ] in
  UI.timers s = [] /\
  UI.hidden (UI.loading (UI.page s)) = true /\
  UI.hidden (UI.error (UI.page s)) = false /\
  UI.error_message (UI.page s)
  = "Failed to calculate impact. Please try again." /\
  UI.hidden (UI.results_section (UI.page s)) = true /\
  UI.totalCo2 (UI.page s) = UI.totalCo2 blankPage /\
  UI.breakdownTable (UI.page s) = UI.breakdownTable blankPage /\
  UI.co2Chart (UI.page s) = UI.co2Chart blankPage /\
  UI.canvas (UI.page s) = UI.canvas blankPage.
Proof.
  apply (unresolved_species_page plainRendering blankPage "baobab" 7 50);
    [discriminate | reflexivity | lia | lia].
Defined.

(** X18. A click that fails the validation changes nothing but the error
    box: it shows the message, schedules nothing, and leaves the loading
    indicator, the results section (so results of an earlier calculation
    stay on screen), the headline, the table and the chart as they were. *)
Theorem validation_error_page (key : string) (numTrees duration : option Z)
  (R : UI.Rendering) (s : UI.State) (m : string) :
  calculateImpact key numTrees duration = showError m ->
  m <> "Failed to calculate impact. Please try again." ->
  let s' := UI.step R s (UI.Click key numTrees duration) in
  UI.timers s' = UI.timers s /\
  UI.error_message (UI.page s') = m /\
  UI.hidden (UI.error (UI.page s')) = false /\
  UI.results_section (UI.page s') = UI.results_section (UI.page s) /\
  UI.loading (UI.page s') = UI.loading (UI.page s) /\
  UI.totalCo2 (UI.page s') = UI.totalCo2 (UI.page s) /\
  UI.breakdownTable (UI.page s') = UI.breakdownTable (UI.page s) /\
  UI.co2Chart (UI.page s') = UI.co2Chart (UI.page s) /\
  UI.canvas (UI.page s') = UI.canvas (UI.page s).
Proof.
  intros H Hm.
  assert (E : UI.step R s (UI.Click key numTrees duration)
              = {| UI.page := UI.showError m (UI.page s);
                   UI.timers := UI.timers s |}).
  { cbn [UI.step]. unfold UI.calculateImpact, calculateImpact in *.
    destruct (String.eqb key "" || falsy numTrees || falsy duration)%bool;
      [congruence |].
    destruct numTrees as [n |]; [| congruence].
    destruct duration as [y |]; [| congruence].
    destruct ((n <? 1) || (n >? 100000))%Z%bool; [congruence |].
    destruct ((y <? 1) || (y >? 50))%Z%bool; [congruence |].
    destruct (calculateCarbonSequestration key n y); [discriminate H |].
    congruence. }
  cbv zeta. rewrite E. cbn [UI.timers UI.page].
  unfold UI.showError. page_simpl.
  split; [reflexivity |].
  split; [reflexivity |].
  split; [apply classList_contains_remove |].
  repeat split.
Qed.

Lemma validation_error_page_witness :
  let s' := UI.step plainRendering
              {| UI.page := blankPage; UI.timers := [] |}
              (UI.Click "oak" (Some 100001%Z) (Some 0%Z)) in
  UI.timers s' = [] /\
  UI.error_message (UI.page s') = "Please fill in all fields" /\
  UI.hidden (UI.error (UI.page s')) = false /\
  UI.results_section (UI.page s') = UI.results_section blankPage /\
  UI.loading (UI.page s') = UI.loading blankPage /\
  UI.totalCo2 (UI.page s') = UI.totalCo2 blankPage /\
  UI.breakdownTable (UI.page s') = UI.breakdownTable blankPage /\
  UI.co2Chart (UI.page s') = UI.co2Chart blankPage /\
  UI.canvas (UI.page s') = UI.canvas blankPage.
Proof.
  apply (validation_error_page "oak" (Some 100001%Z) (Some 0%Z)
           plainRendering {| UI.page := blankPage; UI.timers := [] |}
           "Please fill in all fields");
    [reflexivity | discriminate].
Defined.

(* ------------------------------------------------------------------ *)
(** ** The variant that asks a remote service *)

Lemma remote_valid_click (R : UI.Rendering)
  (service : Remote.Request -> Remote.Reply) (key : string) (n y : Z)
  (p : UI.Page) :
  key <> "" -> n <> 0%Z -> y <> 0%Z ->
  Remote.calculateImpact R service key (Some n) (Some y) p
  = let q := UI.hideError (UI.hideResults (UI.showLoading p)) in
    let request :=
      {| Remote.req_species := key; Remote.req_num_trees := n;
         Remote.req_years := y |} in
    let failed :=
      UI.showError "Failed to calculate impact. Please try again later." q in
    (UI.hideLoading
       match service request with
       | Remote.Parsed data _ =>
           if success data then UI.displayResults R data q else failed
       | _ => failed
       end,
     Some request).
Proof.
  intros Hk Hn Hy. unfold Remote.calculateImpact.
  apply String.eqb_neq in Hk. rewrite Hk.
  cbn [falsy]. apply Z.eqb_neq in Hn, Hy. rewrite Hn, Hy. cbn [orb].
  cbv zeta. destruct (service _); reflexivity.
Qed.

(** X19. The remote variant checks no range: a request is sent exactly when
    the species is not empty and both numbers parsed to non-zero integers,
    and it carries those values as they are, be they negative or beyond
    100000 trees or 50 years. *)
Theorem remote_request_sent_iff (R : UI.Rendering)
  (service : Remote.Request -> Remote.Reply) (key : string)
  (numTrees duration : option Z) (p : UI.Page) (request : Remote.Request) :
  snd (Remote.calculateImpact R service key numTrees duration p)
  = Some request
  <->
  key <> "" /\
  exists n y : Z,
    numTrees = Some n /\ duration = Some y /\ n <> 0%Z /\ y <> 0%Z /\
    request = {| Remote.req_species := key; Remote.req_num_trees := n;
                 Remote.req_years := y |}.
Proof.
  split.
  - unfold Remote.calculateImpact.
    destruct (String.eqb key "") eqn:Ek; [discriminate |].
    destruct numTrees as [n |]; [| discriminate].
    destruct duration as [y |];
      [| cbn [falsy orb]; rewrite orb_true_r; discriminate].
    cbn [falsy orb].
    destruct (Z.eqb_spec n 0) as [-> | Hn]; [discriminate |].
    destruct (Z.eqb_spec y 0) as [-> | Hy]; [discriminate |].
    cbn [orb snd]. intros H. injection H as <-.
    split; [apply String.eqb_neq; exact Ek |].
    exists n, y. repeat split; assumption.
  - intros (Hk & n & y & -> & -> & Hn & Hy & ->).
    rewrite (remote_valid_click R service key n y p Hk Hn Hy).
    reflexivity.
Qed.

(** X20. In the remote variant every failure after the request looks the
    same: whether [fetch] is rejected, the status is not ok, the body does
    not parse, or the body says [success] is false, with or without an
    [error] text, the error box shows the one fixed message, never the text
    of the service, and the results and the loading indicator end up
    hidden. *)
Theorem remote_failure_page (R : UI.Rendering)
  (service : Remote.Request -> Remote.Reply) (key : string) (n y : Z)
  (p : UI.Page) :
  key <> "" -> n <> 0%Z -> y <> 0%Z ->
  (forall (data : Result) (error : option string),
     service {| Remote.req_species := key; Remote.req_num_trees := n;
                Remote.req_years := y |}
     = Remote.Parsed data error ->
     success data = false) ->
  let p' := fst (Remote.calculateImpact R service key (Some n) (Some y) p) in
  UI.error_message p'
  = "Failed to calculate impact. Please try again later." /\
  UI.hidden (UI.error p') = false /\
  UI.hidden (UI.results_section p') = true /\
  UI.hidden (UI.loading p') = true /\
  UI.co2Chart p' = UI.co2Chart p /\
  UI.canvas p' = UI.canvas p.
Proof.
  intros Hk Hn Hy Hfail.
  rewrite (remote_valid_click R service key n y p Hk Hn Hy).
  cbv zeta. cbn [fst].
  set (q := UI.hideError (UI.hideResults (UI.showLoading p))).
  assert (E : match
                service {| Remote.req_species := key;
                           Remote.req_num_trees := n;
                           Remote.req_years := y |}
              with
              | Remote.Parsed data _ =>
                  if success data then UI.displayResults R data q
                  else UI.showError
                         "Failed to calculate impact. Please try again later."
                         q
              | _ =>
                  UI.showError
                    "Failed to calculate impact. Please try again later." q
              end
              = UI.showError
                  "Failed to calculate impact. Please try again later." q).
  { destruct (service _) as [| st | | data err] eqn:Es; try reflexivity.
    rewrite (Hfail data err eq_refl). reflexivity. }
  rewrite E. unfold q.
  unfold UI.hideLoading, UI.showError, UI.hideError, UI.hideResults,
    UI.showLoading.
  page_simpl.
  split; [reflexivity |].
  split; [apply classList_contains_remove |].
  split; [apply classList_contains_add |].
  split; [apply classList_contains_add |].
  split; reflexivity.
Qed.

Lemma remote_failure_page_witness :
  let p' := fst (Remote.calculateImpact plainRendering refusingService
                   "baobab" (Some 100001%Z) (Some 51%Z) blankPage) in
  UI.error_message p'
  = "Failed to calculate impact. Please try again later." /\
  UI.hidden (UI.error p') = false /\
  UI.hidden (UI.results_section p') = true /\
  UI.hidden (UI.loading p') = true /\
  UI.co2Chart p' = UI.co2Chart blankPage /\
  UI.canvas p' = UI.canvas blankPage.
Proof.
  apply (remote_failure_page plainRendering refusingService "baobab"
           100001 51 blankPage);
    [discriminate | lia | lia |].
  intros data error H. injection H as <- _. reflexivity.
Defined.

(** X21. In the remote variant a body whose [success] is true is displayed
    as it is: the results become visible, the error box and the loading
    indicator are hidden, and the chart plots the [year] of the records of
    the body against their [total_co2], in the order of the body. *)
Theorem remote_success_page (R : UI.Rendering)
  (service : Remote.Request -> Remote.Reply) (key : string) (n y : Z)
  (p : UI.Page) (data : Result) (error : option string) :
  key <> "" -> n <> 0%Z -> y <> 0%Z ->
  service {| Remote.req_species := key; Remote.req_num_trees := n;
             Remote.req_years := y |}
  = Remote.Parsed data error ->
  success data = true ->
  let p' := fst (Remote.calculateImpact R service key (Some n) (Some y) p) in
  UI.hidden (UI.results_section p') = false /\
  UI.hidden (UI.error p') = true /\
  UI.hidden (UI.loading p') = true /\
  UI.totalCo2 p' = UI.toLocaleString R (Math_round (final_co2 data)) /\
  exists chart : UI.Chart,
    UI.co2Chart p' = Some chart /\
    UI.labels chart = map year (results data) /\
    UI.data chart = map total_co2 (results data).
Proof.
  intros Hk Hn Hy Hs Hok.
  rewrite (remote_valid_click R service key n y p Hk Hn Hy).
  cbv zeta. cbn [fst]. rewrite Hs, Hok.
  set (q := UI.hideError (UI.hideResults (UI.showLoading p))).
  destruct (displayResults_page R data q)
    as (_ & He & _ & Hr & Ht & _ & _ & chart & Hc & Hlab & Hdat).
  split; [exact Hr |].
  split.
  { change (UI.error (UI.hideLoading (UI.displayResults R data q)))
      with (UI.error (UI.displayResults R data q)).
    rewrite He. apply classList_contains_add. }
  split; [apply hidden_after_hideLoading |].
  split; [exact Ht |].
  exists chart. repeat split; assumption.
Qed.

Lemma remote_success_page_witness :
  let p' := fst (Remote.calculateImpact plainRendering cannedService
                   "pine" (Some 100001%Z) (Some (-4)%Z) blankPage) in
  UI.hidden (UI.results_section p') = false /\
  UI.hidden (UI.error p') = true /\
  UI.hidden (UI.loading p') = true /\
  UI.totalCo2 p'
  = UI.toLocaleString plainRendering (Math_round (Fin 12)) /\
  exists chart : UI.Chart,
    UI.co2Chart p' = Some chart /\
    UI.labels chart = [1%Z] /\
    UI.data chart = [Fin 0.1].
Proof.
  apply (remote_success_page plainRendering cannedService "pine" 100001 (-4)
           blankPage cannedBody None);
    [discriminate | lia | lia | reflexivity | reflexivity].
Defined.
